(** * Smarthome dashboard: astronomical event engine and PV polling scheduler

    A shallow embedding of the scheduling core of [netatmo_dashboard.py]:

    - the Skyfield helpers [init_skyfield], [get_sun_elevation_skyfield],
      [find_sun_crossing_time] and the method [_calculate_solar_noon];
    - the PV scheduler methods of [Dashboard7inchRedesigned]:
      [schedule_pv_window], [_schedule_pv_retry], [_schedule_next_day],
      [_get_current_pv_interval], [_finalize_pv_smart],
      [_finalize_pv_followup], [_finalize_pv_single].

    Conventions of the embedding.

    - Python [int] is [Z].  Python [float] is idealised as an exact rational
      [Q]: a Skyfield [Time] is identified with its [tt] attribute (a Julian
      date, in days), an elevation is a rational number of degrees, and the
      duration and interval arithmetic of the scheduler is exact.
    - An aware [datetime] is the number of microseconds since the epoch (the
      resolution of [datetime]); [timedelta.total_seconds()] divides by 10^6.
    - Module globals and instance attributes are records threaded through
      the functions.  What a function asks of the outside world (the
      ephemeris file, the wall clock, the HTTP providers) is an explicit
      argument.
    - The [logging] calls of the Skyfield helpers append to the process log
      kept in the module state; the Tk calls, thread starts and [logging]
      calls of the scheduler are returned as a list of effects, in program
      order. *)

From Stdlib Require Import ZArith QArith Qabs Qminmax Qround Lqa Lia.
From Stdlib Require Import List String Ascii Bool DecimalString.
Import ListNotations.

Set Implicit Arguments.

(** ** Python primitives *)

Module Py.

(** [int(x)] on a float: truncation toward zero. *)
Definition int (x : Q) : Z := Z.quot (Qnum x) (Z.pos (Qden x)).

Definition ltb (x y : Q) : bool := negb (Qle_bool y x).
Definition leb (x y : Q) : bool := Qle_bool x y.

(** [max(a, b)]: [b] when it is strictly larger, the first argument
    otherwise. *)
Definition max (a b : Q) : Q := if ltb a b then b else a.

(** [range(start, stop, step)] for a positive [step]. *)
Definition range (start stop step : Z) : list Z :=
  List.map (fun k => (start + step * Z.of_nat k)%Z)
           (List.seq 0 (Z.to_nat ((stop - start + step - 1) / step))).

(** The format specification [:02d]. *)
Definition fmt_02d (n : Z) : string :=
  let digits := NilZero.string_of_int (Z.to_int n) in
  if ((0 <=? n) && (n <? 10))%Z then String "0"%char digits else digits.

(** What a call produces: a value, or an exception that reaches the
    caller. *)
Inductive outcome (A : Type) : Type :=
| Return (a : A)
| Raise (exn : string).
Arguments Return {A} a.
Arguments Raise {A} exn.

Inductive Level := DEBUG | INFO | WARNING | ERROR.

(** A log record: level and message (format arguments elided). *)
Definition LogRecord : Type := Level * string.

End Py.

(** ** EventCalculator: the Skyfield helpers *)

Module Astro.
Import Py.

(** A Skyfield [Time], identified with its [tt] attribute. *)
Definition Time : Type := Q.

(** [OBSERVER.at(t).observe(SUN).apparent().altaz()[0].degrees]:
    [None] when the chain raises. *)
Definition Observer : Type := Time -> option Q.

(** The module globals [TS], [OBSERVER], [SKYFIELD_AVAILABLE] and the
    process log. [TS] is [true] once the timescale object is bound. *)
Record Globals := mkGlobals {
  TS : bool;
  OBSERVER : option Observer;
  SKYFIELD_AVAILABLE : option bool;
  LOG : list LogRecord
}.

(** The state at import time (lines 250-256). *)
Definition globals0 : Globals := mkGlobals false None None [].

Definition logging (lvl : Level) (msg : string) (g : Globals) : Globals :=
  mkGlobals (TS g) (OBSERVER g) (SKYFIELD_AVAILABLE g) (LOG g ++ [(lvl, msg)]).

Definition set_available (b : bool) (g : Globals) : Globals :=
  mkGlobals (TS g) (OBSERVER g) (Some b) (LOG g).

(** What [init_skyfield] finds on disk when it has to look: no ephemeris
    file; a failure while importing or loading ([ts_bound] tells whether
    [TS] had been assigned before the exception); or a loaded ephemeris,
    from which the observer is built. *)
Inductive Disk :=
| EphMissing
| EphLoadError (ts_bound : bool)
| EphLoaded (obs : Observer).

Definition msg_eph_missing : string := "Skyfield Ephemeride fehlt".
Definition msg_eph_limited : string := "Astronomie-Funktionen werden eingeschraenkt sein.".
Definition msg_init_ok : string := "Skyfield erfolgreich initialisiert".
Definition msg_init_failed : string := "Fehler bei Skyfield-Initialisierung".
Definition msg_sun_failed : string := "Fehler bei Sonnenberechnung".
Definition msg_noon_failed : string := "Fehler bei Solar Noon Berechnung".

(** [init_skyfield()] (lines 259-301). *)
Definition init_skyfield (d : Disk) (g : Globals) : bool * Globals :=
  match SKYFIELD_AVAILABLE g with
  | Some true => (true, g)
  | available =>
      match d with
      | EphMissing =>
          match available with
          | None =>
              (false,
               set_available false
                 (logging ERROR msg_eph_limited (logging ERROR msg_eph_missing g)))
          | _ => (false, g)
          end
      | EphLoadError ts_bound =>
          let g1 := mkGlobals (TS g || ts_bound) (OBSERVER g)
                              (SKYFIELD_AVAILABLE g) (LOG g) in
          (false, set_available false (logging ERROR msg_init_failed g1))
      | EphLoaded obs =>
          let g1 := mkGlobals true (Some obs) (Some true) (LOG g) in
          (true, logging INFO msg_init_ok g1)
      end
  end.

(** [get_sun_elevation_skyfield(t)] (lines 341-352). *)
Definition get_sun_elevation_skyfield (d : Disk) (t : Time) (g : Globals)
  : Q * Globals :=
  let (ok, g1) := init_skyfield d g in
  if negb ok then (0, g1)
  else
    match OBSERVER g1 with
    | None => (0, g1)
    | Some observer =>
        match observer t with
        | Some degrees => (degrees, g1)
        | None => (0, logging DEBUG msg_sun_failed g1)
        end
    end.

(** [TS.tt_jd(x)]: an [AttributeError] when [TS] is still [None]. *)
Definition tt_jd (g : Globals) (x : Q) : outcome Time :=
  if TS g then Return x else Raise "AttributeError".

(** One pass of the loop body of [find_sun_crossing_time]
    (lines 380-392). *)
Definition bisect_step (d : Disk) (target_elevation : Q) (rising : bool)
    (start_t end_t : Time) (g : Globals) : outcome (Time * Time) * Globals :=
  match tt_jd g ((start_t + end_t) / 2) with
  | Raise e => (Raise e, g)
  | Return mid_t =>
      let (mid_elev, g1) := get_sun_elevation_skyfield d mid_t g in
      if rising then
        if ltb mid_elev target_elevation
        then (Return (mid_t, end_t), g1)
        else (Return (start_t, mid_t), g1)
      else
        if ltb target_elevation mid_elev
        then (Return (mid_t, end_t), g1)
        else (Return (start_t, mid_t), g1)
  end.

(** [for _ in range(n): ...] over the bracket. *)
Fixpoint bisect (n : nat) (d : Disk) (target_elevation : Q) (rising : bool)
    (start_t end_t : Time) (g : Globals) : outcome (Time * Time) * Globals :=
  match n with
  | O => (Return (start_t, end_t), g)
  | S n' =>
      match bisect_step d target_elevation rising start_t end_t g with
      | (Raise e, g1) => (Raise e, g1)
      | (Return (s1, e1), g1) => bisect n' d target_elevation rising s1 e1 g1
      end
  end.

(** [find_sun_crossing_time(target_elevation, start_t, end_t, rising)]
    (lines 369-394). *)
Definition find_sun_crossing_time (d : Disk) (target_elevation : Q)
    (start_t end_t : Time) (rising : bool) (g : Globals)
  : outcome (option Time) * Globals :=
  let (ok, g1) := init_skyfield d g in
  if negb ok then (Return None, g1)
  else
    match bisect 30 d target_elevation rising start_t end_t g1 with
    | (Raise e, g2) => (Raise e, g2)
    | (Return (s30, e30), g2) =>
        match tt_jd g2 ((s30 + e30) / 2) with
        | Raise e => (Raise e, g2)
        | Return t => (Return (Some t), g2)
        end
    end.

(** The sampling grid of [_calculate_solar_noon]: the pairs
    [(hour, minute)] in loop order. *)
Definition noon_grid : list (Z * Z) :=
  List.flat_map (fun hour => List.map (fun minute => (hour, minute)) (range 0 60 5))
                (range 11 15 1).

(** The loop state of [_calculate_solar_noon]: [max_elev], [noon_hour],
    [noon_minute]. *)
Definition NoonAcc : Type := Q * Z * Z.

(** One pass of the inner loop body (lines 2980-2986). [from_datetime h m]
    is [TS.from_datetime] of today's local [h:m:00]. *)
Definition noon_sample (d : Disk) (from_datetime : Z -> Z -> Time)
    (acc : outcome NoonAcc * Globals) (hm : Z * Z) : outcome NoonAcc * Globals :=
  match acc with
  | (Raise e, g) => (Raise e, g)
  | (Return (max_elev, noon_hour, noon_minute), g) =>
      let (hour, minute) := hm in
      match tt_jd g (from_datetime hour minute) with
      | Raise e => (Raise e, g)
      | Return t =>
          let (elev, g1) := get_sun_elevation_skyfield d t g in
          if ltb max_elev elev
          then (Return (elev, hour, minute), g1)
          else (Return (max_elev, noon_hour, noon_minute), g1)
      end
  end.

(** [Dashboard7inchRedesigned._calculate_solar_noon] (lines 2964-2992). *)
Definition _calculate_solar_noon (d : Disk) (from_datetime : Z -> Z -> Time)
    (g : Globals) : (Q * string) * Globals :=
  let (ok, g1) := init_skyfield d g in
  if negb ok then ((45, "--:--"%string), g1)
  else
    match List.fold_left (noon_sample d from_datetime) noon_grid
                         (Return (0, 12%Z, 0%Z), g1) with
    | (Raise _, g2) => ((45, "--:--"%string), logging DEBUG msg_noon_failed g2)
    | (Return (max_elev, noon_hour, noon_minute), g2) =>
        ((max max_elev 10,
          (fmt_02d noon_hour ++ ":" ++ fmt_02d noon_minute)%string), g2)
    end.

(** *** Notions used to state the properties of the helpers *)

(** The invariant of the module globals: once [SKYFIELD_AVAILABLE] is
    [True] the timescale and the observer are bound, and once it is
    [False] the failure is in the log. *)
Definition consistent (g : Globals) : Prop :=
  (SKYFIELD_AVAILABLE g = Some true -> TS g = true /\ OBSERVER g <> None) /\
  (SKYFIELD_AVAILABLE g = Some false -> exists msg, In (ERROR, msg) (LOG g)).

(** The globals after a successful initialisation with observer [obs]. *)
Definition ready (obs : Observer) (g : Globals) : Prop :=
  SKYFIELD_AVAILABLE g = Some true /\ TS g = true /\ OBSERVER g = Some obs.

(** The elevation curve seen by the callers of
    [get_sun_elevation_skyfield] once the ephemeris is loaded. *)
Definition elevation_of (obs : Observer) (t : Time) : Q :=
  match obs t with
  | Some degrees => degrees
  | None => 0
  end.

(** The bracket after one bisection step on the curve [E]. *)
Definition halve (E : Time -> Q) (target : Q) (rising : bool) (b : Time * Time)
  : Time * Time :=
  let (start_t, end_t) := b in
  let mid_t := (start_t + end_t) / 2 in
  if (if rising then ltb (E mid_t) target else ltb target (E mid_t))
  then (mid_t, end_t)
  else (start_t, mid_t).

(** The bracket after [n] bisection steps. *)
Fixpoint brackets (n : nat) (E : Time -> Q) (target : Q) (rising : bool)
    (b : Time * Time) : Time * Time :=
  match n with
  | O => b
  | S n' => brackets n' E target rising (halve E target rising b)
  end.

(** [E] crosses [target] at [c] inside the bracket, strictly monotonically
    in the direction given by [rising]. *)
Definition crosses (E : Time -> Q) (target : Q) (rising : bool)
    (start_t end_t c : Time) : Prop :=
  start_t <= c <= end_t /\
  E c == target /\
  forall a b, start_t <= a -> a < b -> b <= end_t ->
              if rising then E a < E b else E b < E a.

(** A second of time, in days. *)
Definition second : Q := 1 # 86400.

(** [v] is the maximum of the samples [E] over the grid. *)
Definition is_grid_maximum (E : Z * Z -> Q) (grid : list (Z * Z)) (v : Q) : Prop :=
  (exists p, In p grid /\ v == E p) /\ forall p, In p grid -> E p <= v.

(** The elevation sampled by [_calculate_solar_noon] at a grid point. *)
Definition noon_elevation (obs : Observer) (from_datetime : Z -> Z -> Time)
    (hm : Z * Z) : Q :=
  elevation_of obs (from_datetime (fst hm) (snd hm)).

(** What the loop of [_calculate_solar_noon] knows after the samples
    [seen]: the accumulator bounds them all, and it is either still the
    initial one (no positive sample yet) or the first sample that reached
    the running maximum. *)
Definition noon_seen (E : Z * Z -> Q) (seen : list (Z * Z)) (acc : NoonAcc) : Prop :=
  let '(max_elev, h, m) := acc in
  (forall p, In p seen -> E p <= max_elev) /\
  ((max_elev = 0 /\ h = 12%Z /\ m = 0%Z /\ forall p, In p seen -> E p <= 0) \/
   (In (h, m) seen /\ max_elev = E (h, m) /\ 0 < max_elev)).

(** The label [HH:MM] of a grid point. *)
Definition noon_label (hm : Z * Z) : string :=
  (fmt_02d (fst hm) ++ ":" ++ fmt_02d (snd hm))%string.

End Astro.

(** ** The PV polling scheduler of [Dashboard7inchRedesigned] *)

Module PV.
Import Py.

(** An aware [datetime]: microseconds since the epoch. *)
Definition DateTime : Type := Z.
(** A [date]: its ordinal. *)
Definition Date : Type := Z.
Bind Scope Z_scope with DateTime Date.

(** [timedelta(minutes=n)]. *)
Definition timedelta_minutes (n : Z) : Z := (n * 60000000)%Z.

(** [delta.total_seconds()]. *)
Definition total_seconds (delta : Z) : Q := inject_Z delta / 1000000.

(** The tuple built by [_bg_fetch_pv] from [fetch_pv_data()]; each
    component is a JSON number or [None]. *)
Record PvResult := mkPvResult {
  current_power : option Q;
  daily : option Q;
  monthly : option Q;
  yearly : option Q
}.

(** The bound methods handed to [root.after]. *)
Inductive Callback := cb_pv_query_step | cb_schedule_pv_window | cb_pv_followup_step.

(** The [mode] argument of [_bg_fetch_pv]. *)
Inductive Mode := smart | followup | single.

(** The identifier returned by [root.after(ms, callback)]. *)
Definition Timer : Type := Z * Callback.

(** What a scheduler method does to the outside world. *)
Inductive Effect :=
| Log (lvl : Level) (msg : string)
| AfterCancel (id : Timer)
| After (ms : Z) (callback : Callback)
| StartFetch (mode : Mode)
| UpdateLabels (r : PvResult).

(** The PV attributes of the dashboard instance (lines 1340-1354 and
    1383-1385) and its three PV timers. *)
Record Dashboard := mkDashboard {
  pv_civil_dawn : option DateTime;
  pv_sunrise : option DateTime;
  pv_sunset : option DateTime;
  pv_civil_dusk : option DateTime;
  pv_max_queries : Z;
  pv_queries_today : Z;
  pv_query_date : option Date;
  pv_interval_ramp : option Q;
  pv_interval_core : option Q;
  last_pv_power : option Q;
  pv_attempts_today : Z;
  pv_consecutive_failures : Z;
  pv_window_timer : option Timer;
  pv_query_timer : option Timer;
  pv_followup_timer : option Timer
}.

(** The attributes as [__init__] leaves them. *)
Definition dashboard0 : Dashboard :=
  mkDashboard None None None None 280 0 None None None None 0 0 None None None.

Definition set_window (cd sr ss ck : DateTime) (s : Dashboard) : Dashboard :=
  mkDashboard (Some cd) (Some sr) (Some ss) (Some ck)
    (pv_max_queries s) (pv_queries_today s) (pv_query_date s)
    (pv_interval_ramp s) (pv_interval_core s) (last_pv_power s)
    (pv_attempts_today s) (pv_consecutive_failures s)
    (pv_window_timer s) (pv_query_timer s) (pv_followup_timer s).

Definition set_counter (queries : Z) (day : option Date) (s : Dashboard) : Dashboard :=
  mkDashboard (pv_civil_dawn s) (pv_sunrise s) (pv_sunset s) (pv_civil_dusk s)
    (pv_max_queries s) queries day
    (pv_interval_ramp s) (pv_interval_core s) (last_pv_power s)
    (pv_attempts_today s) (pv_consecutive_failures s)
    (pv_window_timer s) (pv_query_timer s) (pv_followup_timer s).

Definition set_intervals (ramp core : Q) (s : Dashboard) : Dashboard :=
  mkDashboard (pv_civil_dawn s) (pv_sunrise s) (pv_sunset s) (pv_civil_dusk s)
    (pv_max_queries s) (pv_queries_today s) (pv_query_date s)
    (Some ramp) (Some core) (last_pv_power s)
    (pv_attempts_today s) (pv_consecutive_failures s)
    (pv_window_timer s) (pv_query_timer s) (pv_followup_timer s).

Definition set_last_pv_power (p : option Q) (s : Dashboard) : Dashboard :=
  mkDashboard (pv_civil_dawn s) (pv_sunrise s) (pv_sunset s) (pv_civil_dusk s)
    (pv_max_queries s) (pv_queries_today s) (pv_query_date s)
    (pv_interval_ramp s) (pv_interval_core s) p
    (pv_attempts_today s) (pv_consecutive_failures s)
    (pv_window_timer s) (pv_query_timer s) (pv_followup_timer s).

Definition set_attempts (n : Z) (s : Dashboard) : Dashboard :=
  mkDashboard (pv_civil_dawn s) (pv_sunrise s) (pv_sunset s) (pv_civil_dusk s)
    (pv_max_queries s) (pv_queries_today s) (pv_query_date s)
    (pv_interval_ramp s) (pv_interval_core s) (last_pv_power s)
    n (pv_consecutive_failures s)
    (pv_window_timer s) (pv_query_timer s) (pv_followup_timer s).

Definition set_failures (n : Z) (s : Dashboard) : Dashboard :=
  mkDashboard (pv_civil_dawn s) (pv_sunrise s) (pv_sunset s) (pv_civil_dusk s)
    (pv_max_queries s) (pv_queries_today s) (pv_query_date s)
    (pv_interval_ramp s) (pv_interval_core s) (last_pv_power s)
    (pv_attempts_today s) n
    (pv_window_timer s) (pv_query_timer s) (pv_followup_timer s).

Definition set_window_timer (t : Timer) (s : Dashboard) : Dashboard :=
  mkDashboard (pv_civil_dawn s) (pv_sunrise s) (pv_sunset s) (pv_civil_dusk s)
    (pv_max_queries s) (pv_queries_today s) (pv_query_date s)
    (pv_interval_ramp s) (pv_interval_core s) (last_pv_power s)
    (pv_attempts_today s) (pv_consecutive_failures s)
    (Some t) (pv_query_timer s) (pv_followup_timer s).

Definition set_query_timer (t : Timer) (s : Dashboard) : Dashboard :=
  mkDashboard (pv_civil_dawn s) (pv_sunrise s) (pv_sunset s) (pv_civil_dusk s)
    (pv_max_queries s) (pv_queries_today s) (pv_query_date s)
    (pv_interval_ramp s) (pv_interval_core s) (last_pv_power s)
    (pv_attempts_today s) (pv_consecutive_failures s)
    (pv_window_timer s) (Some t) (pv_followup_timer s).

Definition set_followup_timer (t : Timer) (s : Dashboard) : Dashboard :=
  mkDashboard (pv_civil_dawn s) (pv_sunrise s) (pv_sunset s) (pv_civil_dusk s)
    (pv_max_queries s) (pv_queries_today s) (pv_query_date s)
    (pv_interval_ramp s) (pv_interval_core s) (last_pv_power s)
    (pv_attempts_today s) (pv_consecutive_failures s)
    (pv_window_timer s) (pv_query_timer s) (Some t).

(** What one callback reads from the outside world: the wall clock
    ([datetime.now(tz)] and its date), the results of
    [get_civil_twilight_skyfield()] for today and for tomorrow, and the
    answers of [fetch_sunrise_sunset_datetimes_local()], by call number
    within the callback. *)
Record Env := mkEnv {
  today : Date;
  now : DateTime;
  twilight_today : option DateTime * option DateTime;
  twilight_tomorrow : option DateTime * option DateTime;
  met_no : nat -> option DateTime * option DateTime
}.

(** [if self.<timer>: try: self.root.after_cancel(self.<timer>) ...]. *)
Definition cancel (t : option Timer) : list Effect :=
  match t with
  | Some id => [AfterCancel id]
  | None => []
  end.

(** [_schedule_pv_retry(delay_ms, start_queries)] (lines 3382-3393). *)
Definition _schedule_pv_retry (delay_ms : Z) (start_queries : bool) (s : Dashboard)
  : Dashboard * list Effect :=
  let callback := if start_queries then cb_pv_query_step else cb_schedule_pv_window in
  (set_window_timer (delay_ms, callback) s,
   cancel (pv_window_timer s) ++ [After delay_ms callback]).

(** [_schedule_next_day()] (lines 3395-3416). *)
Definition _schedule_next_day (env : Env) (s : Dashboard) : Dashboard * list Effect :=
  match fst (twilight_tomorrow env) with
  | Some civil_dawn_tomorrow =>
      let delay_ms := int (total_seconds (civil_dawn_tomorrow - now env) * 1000) in
      let delay_ms := Z.max delay_ms (60 * 1000) in
      let (s1, eff) := _schedule_pv_retry delay_ms true s in
      (s1, eff ++ [Log INFO "PV fuer morgen geplant"])
  | None =>
      let (s1, eff) := _schedule_pv_retry (12 * 60 * 60 * 1000) false s in
      (s1, eff ++ [Log INFO "Konnte morgen nicht berechnen, versuche in 12h erneut"])
  end.

(** [pv_query_step()] and [pv_followup_step()]: start the fetch thread. *)
Definition pv_query_step : list Effect := [StartFetch smart].
Definition pv_followup_step : list Effect := [StartFetch followup].

Definition CORE_WEIGHT : Q := 5.
Definition RAMP_WEIGHT : Q := 1.

(** The four boundaries of the polling window. *)
Record Window := mkWindow {
  civil_dawn : DateTime;
  sunrise_dt : DateTime;
  sunset_dt : DateTime;
  civil_dusk : DateTime
}.

(** [max(0, (later - earlier).total_seconds() / 60)]. *)
Definition phase_min (later earlier : DateTime) : Q :=
  max 0 (total_seconds (later - earlier) / 60).

Definition ramp_morning_min (w : Window) : Q := phase_min (sunrise_dt w) (civil_dawn w).
Definition core_min (w : Window) : Q := phase_min (sunset_dt w) (sunrise_dt w).
Definition ramp_evening_min (w : Window) : Q := phase_min (civil_dusk w) (sunset_dt w).

Definition weighted_total (w : Window) : Q :=
  ramp_morning_min w * RAMP_WEIGHT + core_min w * CORE_WEIGHT
  + ramp_evening_min w * RAMP_WEIGHT.

(** The result of the budget block of [schedule_pv_window]: the two
    stored intervals, and the local query counts
    [(queries_ramp_morning, queries_core, queries_ramp_evening)] as they
    stand when the intervals are computed ([None] on the branch that
    computes no counts). *)
Record Plan := mkPlan {
  interval_ramp : Q;
  interval_core : Q;
  queries : option (Z * Z * Z)
}.

(** The budget block of [schedule_pv_window] (lines 3307-3353).  The
    shares of the budget are exact rationals here.  On doubles a share
    whose exact value is an integer can come out just below it and
    truncate to one less: phases of 1216, 33440 and 1824 seconds have the
    exact shares 2, 275 and 3 of a budget of 280, and [int] of the doubles
    gives 1, 274 and 2.  The counts of a plan are therefore the counts of
    the exact shares; what is proved about them below is stated relative
    to the counts the plan holds, or bounds them from above by the exact
    shares. *)
Definition pv_budget (max_queries : Z) (w : Window) : Plan :=
  if leb (weighted_total w) 0 then
    mkPlan (10 * 60) (2 * 60) None
  else
    let queries_ramp_morning :=
      int (inject_Z max_queries * (ramp_morning_min w * RAMP_WEIGHT) / weighted_total w) in
    let queries_core :=
      int (inject_Z max_queries * (core_min w * CORE_WEIGHT) / weighted_total w) in
    let queries_ramp_evening :=
      int (inject_Z max_queries * (ramp_evening_min w * RAMP_WEIGHT) / weighted_total w) in
    let total_queries := (queries_ramp_morning + queries_core + queries_ramp_evening)%Z in
    let queries_core :=
      if (max_queries <? total_queries)%Z
      then (queries_core - (total_queries - max_queries))%Z
      else queries_core in
    let ramp :=
      if (0 <? queries_ramp_morning)%Z && ltb 0 (ramp_morning_min w)
      then (ramp_morning_min w / inject_Z queries_ramp_morning) * 60
      else 10 * 60 in
    let core :=
      if (0 <? queries_core)%Z && ltb 0 (core_min w)
      then (core_min w / inject_Z queries_core) * 60
      else 2 * 60 in
    mkPlan ramp core (Some (queries_ramp_morning, queries_core, queries_ramp_evening)).

(** The tail of [schedule_pv_window], from "Zeiten speichern" on
    (lines 3301-3376). *)
Definition plan_and_start (env : Env) (w : Window) (s : Dashboard)
  : Dashboard * list Effect :=
  let s1 := set_window (civil_dawn w) (sunrise_dt w) (sunset_dt w) (civil_dusk w) s in
  let p := pv_budget (pv_max_queries s1) w in
  let s2 := set_intervals (interval_ramp p) (interval_core p) s1 in
  let eff_budget :=
    match queries p with
    | None => [Log WARNING "Ungueltige Zeitberechnung, verwende Fallback-Intervalle"]
    | Some _ => [Log INFO "PV-Budget"]
    end ++ [Log INFO "PV-Fenster"] in
  if (now env <? civil_dawn w)%Z then
    let delay_ms := int (total_seconds (civil_dawn w - now env) * 1000) in
    let delay_ms := Z.max delay_ms 1000 in
    let (s3, eff) := _schedule_pv_retry delay_ms true s2 in
    (s3, eff_budget ++ eff ++ [Log INFO "PV startet bei Morgendaemmerung"])
  else if ((civil_dawn w <=? now env) && (now env <=? civil_dusk w))%Z then
    (s2, eff_budget ++ [Log INFO "Aktuell im PV-Fenster -> Starte Abfragen"] ++ pv_query_step)
  else
    let (s3, eff) := _schedule_next_day env s2 in
    (s3, eff_budget ++ eff).

(** The sunrise/sunset step of [schedule_pv_window] (lines 3292-3299):
    [k] is how many times the provider has been asked so far. *)
Definition with_sun_times (env : Env) (k : nat) (dawn dusk : DateTime) (s : Dashboard)
  : Dashboard * list Effect :=
  match met_no env k with
  | (Some sunrise, Some sunset) =>
      plan_and_start env (mkWindow dawn sunrise sunset dusk) s
  | _ =>
      let sunrise := (dawn + timedelta_minutes 30)%Z in
      let sunset := (dusk - timedelta_minutes 30)%Z in
      let (s1, eff) := plan_and_start env (mkWindow dawn sunrise sunset dusk) s in
      (s1, Log INFO "Sonnenzeiten nicht verfuegbar, verwende Fallback" :: eff)
  end.

(** The head of [schedule_pv_window] (lines 3266-3272):
    [if self.pv_query_date != today: ...]. *)
Definition reset_on_new_day (env : Env) (s : Dashboard) : Dashboard * list Effect :=
  let same_day :=
    match pv_query_date s with
    | Some d => (d =? today env)%Z
    | None => false
    end in
  if same_day then (s, [])
  else (set_counter 0 (Some (today env)) s,
        [Log INFO "PV-Abfragezaehler zurueckgesetzt"]).

(** [schedule_pv_window()] (lines 3258-3380). *)
Definition schedule_pv_window (env : Env) (s : Dashboard) : Dashboard * list Effect :=
  let (s1, eff_reset) := reset_on_new_day env s in
  match twilight_today env with
  | (Some dawn, Some dusk) =>
      let (s2, eff) := with_sun_times env 0 dawn dusk s1 in
      (s2, eff_reset ++ eff)
  | _ =>
      let eff_fallback :=
        [Log INFO "Skyfield-Daemmerung nicht verfuegbar, verwende api.met.no Fallback"] in
      match met_no env 0 with
      | (Some sunrise, Some sunset) =>
          let dawn := (sunrise - timedelta_minutes 30)%Z in
          let dusk := (sunset + timedelta_minutes 30)%Z in
          let (s2, eff) := with_sun_times env 1 dawn dusk s1 in
          (s2, eff_reset ++ eff_fallback ++ [Log INFO "Fallback-Daemmerung"] ++ eff)
      | _ =>
          let (s2, eff) := _schedule_pv_retry (30 * 60 * 1000) false s1 in
          (s2, eff_reset ++ eff_fallback
               ++ [Log WARNING "Weder Skyfield noch api.met.no verfuegbar. Erneuter Versuch in 30 Minuten."]
               ++ eff)
      end
  end.

(** Python truthiness of an interval attribute: neither [None] nor zero. *)
Definition truthy (x : option Q) : bool :=
  match x with
  | Some q => negb (Qeq_bool q 0)
  | None => false
  end.

(** [_get_current_pv_interval()] (lines 3418-3456): the pair
    [(interval_seconds, continue_queries)]. *)
Definition _get_current_pv_interval (env : Env) (s : Dashboard)
  : (Q * bool) * list Effect :=
  if (pv_max_queries s <=? pv_queries_today s)%Z then
    ((0, false), [Log WARNING "PV-Tageslimit erreicht"])
  else
    match pv_civil_dawn s, pv_sunrise s, pv_sunset s, pv_civil_dusk s with
    | Some dawn, Some sunrise, Some sunset, Some dusk =>
        match pv_interval_ramp s, pv_interval_core s with
        | Some ramp, Some core =>
            if negb (truthy (Some ramp)) || negb (truthy (Some core)) then
              ((120, false), [])
            else if ((now env <? dawn) || (dusk <? now env))%Z then ((0, false), [])
            else if ((dawn <=? now env) && (now env <? sunrise))%Z then ((ramp, true), [])
            else if ((sunrise <=? now env) && (now env <=? sunset))%Z then ((core, true), [])
            else if ((sunset <? now env) && (now env <=? dusk))%Z then ((ramp, true), [])
            else ((0, false), [])
        | _, _ => ((120, false), [])
        end
    | _, _, _, _ =>
        ((if truthy (pv_interval_core s)
          then match pv_interval_core s with Some core => core | None => 120 end
          else 120, false), [])
    end.

(** The part of [update_pv_labels] (lines 3168-3217) that touches the
    scheduler: it records [current_power]; the widget, graph and cache
    updates are the [UpdateLabels] effect. *)
Definition update_pv_labels (r : PvResult) (s : Dashboard) : Dashboard * list Effect :=
  (set_last_pv_power (current_power r) s, [UpdateLabels r]).

(** [self.last_pv_power is not None and self.last_pv_power > 0]. *)
Definition producing (s : Dashboard) : bool :=
  match last_pv_power s with
  | Some p => ltb 0 p
  | None => false
  end.

(** The common head of the three finalizers: count the attempt, then count
    the query and clear the failure counter on a result, or count the
    failure, logged under the finalizer's own [label]. *)
Definition count_result (label : string) (result : option PvResult) (s : Dashboard)
  : Dashboard * list Effect :=
  let s1 := set_attempts (pv_attempts_today s + 1) s in
  match result with
  | Some r =>
      let (s2, eff) := update_pv_labels r s1 in
      let s3 := set_counter (pv_queries_today s2 + 1) (pv_query_date s2) s2 in
      (set_failures 0 s3, eff)
  | None =>
      (set_failures (pv_consecutive_failures s1 + 1) s1, [Log DEBUG label])
  end.

Definition is_result (result : option PvResult) : bool :=
  match result with Some _ => true | None => false end.

(** [_finalize_pv_smart(result)] (lines 3462-3507). *)
Definition _finalize_pv_smart (env : Env) (result : option PvResult) (s : Dashboard)
  : Dashboard * list Effect :=
  let (s1, eff1) := count_result "PV: Fehler" result s in
  if negb (is_result result) && (5 <=? pv_consecutive_failures s1)%Z then
    let (s2, eff2) := _schedule_pv_retry (15 * 60 * 1000) false s1 in
    (s2, eff1 ++ [Log WARNING "PV: Fehler in Folge, pausiere 15 Min"] ++ eff2)
  else
    let '((interval_s, continue_queries), eff2) := _get_current_pv_interval env s1 in
    if continue_queries && ltb 0 interval_s then
      let ms := int (interval_s * 1000) in
      let s2 := set_query_timer (ms, cb_pv_query_step) s1 in
      (s2, eff1 ++ eff2 ++ cancel (pv_query_timer s1) ++ [After ms cb_pv_query_step]
           ++ (if (pv_queries_today s1 mod 50 =? 0)%Z
               then [Log INFO "PV-Abfragen heute"] else []))
    else if producing s1 then
      if (pv_queries_today s1 <? pv_max_queries s1)%Z then
        (s1, eff1 ++ eff2
             ++ [Log INFO "PV-Fenster beendet, aber noch Produktion -> Followup alle 10min"]
             ++ pv_followup_step)
      else
        let (s2, eff3) := _schedule_next_day env s1 in
        (s2, eff1 ++ eff2 ++ [Log INFO "PV-Fenster beendet, Budget erschoepft"] ++ eff3)
    else
      let (s2, eff3) := _schedule_next_day env s1 in
      (s2, eff1 ++ eff2 ++ [Log INFO "PV-Fenster beendet."] ++ eff3).

(** [_finalize_pv_followup(result)] (lines 3529-3568). *)
Definition _finalize_pv_followup (env : Env) (result : option PvResult) (s : Dashboard)
  : Dashboard * list Effect :=
  let (s1, eff1) := count_result "PV followup: Fehler" result s in
  if negb (is_result result) && (5 <=? pv_consecutive_failures s1)%Z then
    let s2 := set_followup_timer (15 * 60 * 1000, cb_pv_followup_step)%Z s1 in
    (s2, eff1 ++ [Log WARNING "PV: Fehler in Folge, pausiere 15 Min"]
         ++ cancel (pv_followup_timer s1)
         ++ [After (15 * 60 * 1000) cb_pv_followup_step])
  else if (pv_max_queries s1 <=? pv_queries_today s1)%Z then
    let (s2, eff2) := _schedule_next_day env s1 in
    (s2, eff1 ++ [Log INFO "PV-Followup beendet: Tageslimit erreicht"] ++ eff2)
  else if producing s1 then
    let s2 := set_followup_timer (10 * 60 * 1000, cb_pv_followup_step)%Z s1 in
    (s2, eff1 ++ cancel (pv_followup_timer s1)
         ++ [After (10 * 60 * 1000) cb_pv_followup_step;
             Log DEBUG "Weiterer PV-Followup in 10 Minuten (Produktion > 0)."])
  else
    let (s2, eff2) := _schedule_next_day env s1 in
    (s2, eff1 ++ [Log INFO "PV-Followups beendet (keine Produktion)."] ++ eff2).

(** [_finalize_pv_single(result)] (lines 3574-3584). *)
Definition _finalize_pv_single (result : option PvResult) (s : Dashboard)
  : Dashboard * list Effect :=
  count_result "PV single: Fehler" result s.

(** The dispatch at the end of [_bg_fetch_pv(mode)] (lines 3518-3523):
    the finalizer that the Tk loop runs on the fetched result. *)
Definition finalize (mode : Mode) (env : Env) (result : option PvResult) (s : Dashboard)
  : Dashboard * list Effect :=
  match mode with
  | smart => _finalize_pv_smart env result s
  | followup => _finalize_pv_followup env result s
  | single => _finalize_pv_single result s
  end.

(** A fetch result handed back to the Tk loop, with what the loop reads
    from the outside world while it applies it. *)
Definition Tick : Type := Mode * Env * option PvResult.

(** Applying a sequence of fetch results in order; the effects of each
    application are kept apart. *)
Fixpoint run (ticks : list Tick) (s : Dashboard) : Dashboard * list (list Effect) :=
  match ticks with
  | [] => (s, [])
  | (mode, env, result) :: rest =>
      let (s1, eff) := finalize mode env result s in
      let (s2, effs) := run rest s1 in
      (s2, eff :: effs)
  end.

(** The extended pause armed by a finalizer of the given mode: 15 minutes
    on the window scheduler (smart and single polling have no timer of
    their own) or on the followup step. *)
Definition pause_timer (mode : Mode) : Timer :=
  match mode with
  | followup => ((15 * 60 * 1000)%Z, cb_pv_followup_step)
  | _ => ((15 * 60 * 1000)%Z, cb_schedule_pv_window)
  end.

(** The timers armed by a list of effects, in order. *)
Definition armed (eff : list Effect) : list (Z * Callback) :=
  List.flat_map (fun e => match e with After ms cb => [(ms, cb)] | _ => [] end) eff.

(** *** Notions used to state the properties of the scheduler *)

(** The three polling phases. *)
Inductive Phase := dawn_ramp | core | dusk_ramp.

(** Membership of [t] in a phase, with the comparisons of
    [_get_current_pv_interval]. *)
Definition in_phase (ph : Phase) (w : Window) (t : DateTime) : Prop :=
  match ph with
  | dawn_ramp => (civil_dawn w <= t < sunrise_dt w)%Z
  | core => (sunrise_dt w <= t <= sunset_dt w)%Z
  | dusk_ramp => (sunset_dt w < t <= civil_dusk w)%Z
  end.

(** The interval [_get_current_pv_interval] reads for a phase: the ramp
    attribute in both ramps, the core attribute in the core. *)
Definition phase_interval (p : Plan) (ph : Phase) : Q :=
  match ph with
  | core => interval_core p
  | _ => interval_ramp p
  end.

Definition phase_minutes (w : Window) (ph : Phase) : Q :=
  match ph with
  | dawn_ramp => ramp_morning_min w
  | core => core_min w
  | dusk_ramp => ramp_evening_min w
  end.

(** The query count of a phase in a plan (0 when no counts are computed). *)
Definition phase_queries (p : Plan) (ph : Phase) : Z :=
  match queries p with
  | Some (qm, qc, qe) =>
      match ph with dawn_ramp => qm | core => qc | dusk_ramp => qe end
  | None => 0%Z
  end.

(** The number of queries the stored interval of a phase implies over
    the phase: the seconds of the phase over the interval polled in it. *)
Definition implied_queries (p : Plan) (w : Window) (ph : Phase) : Q :=
  phase_minutes w ph * 60 / phase_interval p ph.

(** The queries the stored intervals imply over the whole window. *)
Definition implied_total (p : Plan) (w : Window) : Q :=
  implied_queries p w dawn_ramp + implied_queries p w core
  + implied_queries p w dusk_ramp.

Definition default_interval (ph : Phase) : Q :=
  match ph with
  | core => 2 * 60
  | _ => 10 * 60
  end.

(** The interval as the specification words it: each phase's own minutes
    times 60 over its own query count, and the default when the count, the
    duration or the weighted total is zero. *)
Definition spec_phase_interval (max_queries : Z) (w : Window) (ph : Phase) : Q :=
  let p := pv_budget max_queries w in
  if (phase_queries p ph =? 0)%Z || Qeq_bool (phase_minutes w ph) 0
     || Qeq_bool (weighted_total w) 0
  then default_interval ph
  else phase_minutes w ph * 60 / inject_Z (phase_queries p ph).

(** The phase whose minutes and count feed the interval used in [ph]: the
    evening ramp is polled with the interval of the morning ramp. *)
Definition source_phase (ph : Phase) : Phase :=
  match ph with
  | core => core
  | _ => dawn_ramp
  end.

(** The interval the code uses in a phase, in closed form. *)
Definition used_phase_interval (max_queries : Z) (w : Window) (ph : Phase) : Q :=
  let p := pv_budget max_queries w in
  let src := source_phase ph in
  if leb (weighted_total w) 0 then default_interval ph
  else if (0 <? phase_queries p src)%Z && ltb 0 (phase_minutes w src)
  then (phase_minutes w src / inject_Z (phase_queries p src)) * 60
  else default_interval ph.

(** Sunrise and sunset from the provider's answer, or 30 minutes inside
    the civil twilight bounds. *)
Definition sun_times (answer : option DateTime * option DateTime)
    (dawn dusk : DateTime) : Window :=
  match answer with
  | (Some sunrise, Some sunset) => mkWindow dawn sunrise sunset dusk
  | _ => mkWindow dawn (dawn + timedelta_minutes 30) (dusk - timedelta_minutes 30) dusk
  end.

(** The window [schedule_pv_window] works with: civil twilight from
    Skyfield, else 30 minutes outside the provider's sunrise and sunset;
    [None] when neither source answers. *)
Definition twilight_window (env : Env) : option Window :=
  match twilight_today env with
  | (Some dawn, Some dusk) => Some (sun_times (met_no env 0) dawn dusk)
  | _ =>
      match met_no env 0 with
      | (Some sunrise, Some sunset) =>
          Some (sun_times (met_no env 1)
                          (sunrise - timedelta_minutes 30)
                          (sunset + timedelta_minutes 30))
      | _ => None
      end
  end.

(** The boundaries of a window are in order. *)
Definition valid_window (w : Window) : Prop :=
  (civil_dawn w <= sunrise_dt w /\ sunrise_dt w <= sunset_dt w /\
   sunset_dt w <= civil_dusk w)%Z.

(** The instance holds the window [w] and the intervals planned for it. *)
Definition holds_plan (w : Window) (s : Dashboard) : Prop :=
  pv_civil_dawn s = Some (civil_dawn w) /\
  pv_sunrise s = Some (sunrise_dt w) /\
  pv_sunset s = Some (sunset_dt w) /\
  pv_civil_dusk s = Some (civil_dusk w) /\
  pv_interval_ramp s = Some (interval_ramp (pv_budget (pv_max_queries s) w)) /\
  pv_interval_core s = Some (interval_core (pv_budget (pv_max_queries s) w)).

(** Day rollover as the specification words it: the counter is reset and
    fresh intervals are computed, whatever the state. *)
Definition rollover_recomputes (env : Env) (s : Dashboard) : Prop :=
  pv_query_date s <> Some (today env) ->
  let s' := fst (schedule_pv_window env s) in
  pv_queries_today s' = 0%Z /\ exists w, holds_plan w s'.

Definition starts_polling (eff : list Effect) : Prop :=
  In (StartFetch smart) eff \/ exists ms, In (After ms cb_pv_query_step) eff.

Definition warns (eff : list Effect) : Prop :=
  exists msg, In (Log WARNING msg) eff.

(** The fallback as the specification words it: with no source, fixed
    window bounds are used, a warning is logged and polling proceeds. *)
Definition falls_back_to_fixed_window (env : Env) (s : Dashboard) : Prop :=
  twilight_window env = None ->
  let (s', eff) := schedule_pv_window env s in
  (exists dawn sunrise sunset dusk,
      pv_civil_dawn s' = Some dawn /\ pv_sunrise s' = Some sunrise /\
      pv_sunset s' = Some sunset /\ pv_civil_dusk s' = Some dusk) /\
  warns eff /\ starts_polling eff.

(** The extended pause: a 15-minute timer on the window scheduler (smart
    polling) or on the followup step (followup polling). *)
Definition is_pause (e : Effect) : bool :=
  match e with
  | After ms cb_schedule_pv_window => (ms =? 15 * 60 * 1000)%Z
  | After ms cb_pv_followup_step => (ms =? 15 * 60 * 1000)%Z
  | _ => false
  end.

Definition pauses (eff : list Effect) : nat := List.length (List.filter is_pause eff).

(** The pauses of a run of results from a failure counter [n]: one at
    each failure that brings the counter to 5 or more. *)
Fixpoint expected_pauses (n : Z) (ticks : list Tick) : list nat :=
  match ticks with
  | [] => []
  | (_, _, Some _) :: rest => 0%nat :: expected_pauses 0 rest
  | (_, _, None) :: rest =>
      (if (5 <=? n + 1)%Z then 1%nat else 0%nat) :: expected_pauses (n + 1) rest
  end.

Definition failure_tick (t : Tick) : Prop := snd t = None.
Definition polling_tick (t : Tick) : Prop := fst (fst t) <> single.

(** The fetch threads started by a list of effects, in order. *)
Definition started (eff : list Effect) : list Mode :=
  List.flat_map (fun e => match e with StartFetch mode => [mode] | _ => [] end) eff.

(** Two instances that differ at most in their timers. *)
Definition same_but_timers (s s' : Dashboard) : Prop :=
  pv_civil_dawn s' = pv_civil_dawn s /\
  pv_sunrise s' = pv_sunrise s /\
  pv_sunset s' = pv_sunset s /\
  pv_civil_dusk s' = pv_civil_dusk s /\
  pv_max_queries s' = pv_max_queries s /\
  pv_queries_today s' = pv_queries_today s /\
  pv_query_date s' = pv_query_date s /\
  pv_interval_ramp s' = pv_interval_ramp s /\
  pv_interval_core s' = pv_interval_core s /\
  last_pv_power s' = last_pv_power s /\
  pv_attempts_today s' = pv_attempts_today s /\
  pv_consecutive_failures s' = pv_consecutive_failures s.

(** The label under which a finalizer logs a failure. *)
Definition label_of (mode : Mode) : string :=
  match mode with
  | smart => "PV: Fehler"
  | followup => "PV followup: Fehler"
  | single => "PV single: Fehler"
  end.

End PV.

(** ** The callers of the crossing search and of the elevation *)

Module Twilight.
Import Py Astro.

Definition msg_twilight_failed : string := "Fehler bei Berechnung der zivilen Daemmerung".
Definition msg_twilight_done : string := "Zivile Daemmerung berechnet".
Definition msg_max_sun_failed : string := "Fehler bei Max-Sonnenhoehe-Berechnung".

Definition CIVIL_TWILIGHT_ANGLE : Q := -6.

(** [get_civil_twilight_skyfield(date)] (lines 397-444).  [at_time h m s]
    is the Julian date [TS.from_datetime] gives the local wall time
    [h:m:s] of the date, and [to_local t] is
    [t.utc_datetime().replace(tzinfo=timezone.utc).astimezone(local_tz)]. *)
Definition get_civil_twilight_skyfield (d : Disk) (at_time : Z -> Z -> Z -> Time)
    (to_local : Time -> PV.DateTime) (g : Globals)
  : (option PV.DateTime * option PV.DateTime) * Globals :=
  let (ok, g1) := init_skyfield d g in
  if negb ok then ((None, None), g1)
  else
    match tt_jd g1 (at_time 0 0 0)%Z, tt_jd g1 (at_time 23 59 59)%Z,
          tt_jd g1 (at_time 12 0 0)%Z with
    | Return t_start, Return t_end, Return t_noon =>
        match find_sun_crossing_time d CIVIL_TWILIGHT_ANGLE t_start t_noon true g1 with
        | (Raise _, g2) => ((None, None), logging ERROR msg_twilight_failed g2)
        | (Return None, g2) => ((None, None), g2)
        | (Return (Some dawn_t), g2) =>
            match find_sun_crossing_time d CIVIL_TWILIGHT_ANGLE t_noon t_end false g2 with
            | (Raise _, g3) => ((None, None), logging ERROR msg_twilight_failed g3)
            | (Return None, g3) => ((None, None), g3)
            | (Return (Some dusk_t), g3) =>
                ((Some (to_local dawn_t), Some (to_local dusk_t)),
                 logging DEBUG msg_twilight_done g3)
            end
        end
    | _, _, _ => ((None, None), logging ERROR msg_twilight_failed g1)
    end.

(** One pass of the loop body of [_calculate_max_sun_elevation]
    (lines 3022-3026). *)
Definition max_sun_sample (d : Disk) (from_datetime : Z -> Z -> Time)
    (acc : outcome Q * Globals) (hour : Z) : outcome Q * Globals :=
  match acc with
  | (Raise e, g) => (Raise e, g)
  | (Return max_elev, g) =>
      match tt_jd g (from_datetime hour 0%Z) with
      | Raise e => (Raise e, g)
      | Return t =>
          let (elev, g1) := get_sun_elevation_skyfield d t g in
          if ltb max_elev elev then (Return elev, g1) else (Return max_elev, g1)
      end
  end.

(** [Dashboard7inchRedesigned._calculate_max_sun_elevation]
    (lines 3011-3031): the answer of [init_skyfield()] is not looked at. *)
Definition _calculate_max_sun_elevation (d : Disk) (from_datetime : Z -> Z -> Time)
    (g : Globals) : Q * Globals :=
  let (_, g1) := init_skyfield d g in
  match List.fold_left (max_sun_sample d from_datetime) (range 6 19 1) (Return 0, g1) with
  | (Raise _, g2) => (45, logging DEBUG msg_max_sun_failed g2)
  | (Return max_elev, g2) => (max max_elev 10, g2)
  end.

(** The environment of [schedule_pv_window] when its civil twilight comes
    from [get_civil_twilight_skyfield] in the state [g]. *)
Definition env_with_twilight (d : Disk) (at_time : Z -> Z -> Z -> Time)
    (to_local : Time -> PV.DateTime) (g : Globals) (env : PV.Env) : PV.Env :=
  PV.mkEnv (PV.today env) (PV.now env)
           (fst (get_civil_twilight_skyfield d at_time to_local g))
           (PV.twilight_tomorrow env) (PV.met_no env).

End Twilight.

(** ** The callbacks of the PV schedule on the Tk loop *)

Module Loop.
Import Py PV.

(** What the Tk loop runs for the PV schedule: a fetch result handed back
    by [_bg_fetch_pv], [schedule_pv_window] (at start-up and from its
    timer), and the two timer callbacks that start a fetch. *)
Inductive Event :=
| result_applied (mode : Mode) (env : Env) (result : option PvResult)
| window_scheduled (env : Env)
| query_step
| followup_step.

Definition handle (e : Event) (s : Dashboard) : Dashboard * list Effect :=
  match e with
  | result_applied mode env result => finalize mode env result s
  | window_scheduled env => schedule_pv_window env s
  | query_step => (s, pv_query_step)
  | followup_step => (s, pv_followup_step)
  end.

Fixpoint run_events (events : list Event) (s : Dashboard) : Dashboard :=
  match events with
  | [] => s
  | e :: rest => run_events rest (fst (handle e s))
  end.

(** The counters of a running dashboard. *)
Definition counters_sound (s : Dashboard) : Prop :=
  (pv_max_queries s = 280 /\
   0 <= pv_queries_today s <= pv_attempts_today s /\
   0 <= pv_consecutive_failures s <= pv_attempts_today s)%Z.

(** The ways a callback carries the schedule on: the timers it arms and
    the fetches it starts. *)
Definition continuations (eff : list Effect) : nat :=
  (List.length (armed eff) + List.length (started eff))%nat.

(** A timer is kept in one of the three timer attributes. *)
Definition recorded (t : Timer) (s : Dashboard) : Prop :=
  pv_window_timer s = Some t \/ pv_query_timer s = Some t \/ pv_followup_timer s = Some t.

(** What a callback does to carry on: the one timer it arms, kept in a
    timer attribute of the resulting instance, or the one fetch it
    starts. *)
Inductive carries_on (s' : Dashboard) (eff : list Effect) : Prop :=
| arms_timer (t : Timer) :
    armed eff = [t] -> started eff = [] -> recorded t s' -> carries_on s' eff
| starts_fetch (mode : Mode) :
    armed eff = [] -> started eff = [mode] -> carries_on s' eff.

End Loop.

(** ** The buffer of the day's PV measurements *)

Module PvBuffer.
Import Py.

(** An entry of the day's curve: [{"time": "HH:MM:SS", "power": power}]. *)
Record Measurement := mkMeasurement {
  time : string;
  power : Q
}.

(** The global [_pv_daily_buffer]. *)
Record Buffer := mkBuffer {
  date : option string;
  measurements : list Measurement;
  dirty : bool
}.

(** [PV_DAILY_FILE]: absent, unreadable (opening or parsing raises), or
    holding what [save_pv_daily_data] writes. *)
Inductive PvFile :=
| NoFile
| Unreadable
| Stored (day : option string) (entries : list Measurement).

(** The buffer, the file and the process log. *)
Record World := mkWorld {
  buffer : Buffer;
  file : PvFile;
  log : list LogRecord
}.

(** The buffer at import time (line 817). *)
Definition buffer0 : Buffer := mkBuffer None [] false.

Definition MAX_PV_MEASUREMENTS_PER_DAY : nat := 500.
Definition _pv_flush_interval : nat := 20.

Definition logged (lvl : Level) (msg : string) (w : World) : World :=
  mkWorld (buffer w) (file w) (log w ++ [(lvl, msg)]).

Definition with_buffer (b : Buffer) (w : World) : World :=
  mkWorld b (file w) (log w).

(** [buffer["date"] == today]. *)
Definition is_day (day : option string) (today : string) : bool :=
  match day with
  | Some s => String.eqb s today
  | None => false
  end.

(** [load_pv_daily_data()] (lines 822-856); [today] is
    [datetime.now().strftime("%Y-%m-%d")]. *)
Definition load_pv_daily_data (today : string) (w : World) : Buffer * World :=
  if is_day (date (buffer w)) today then (buffer w, w)
  else
    let fresh := mkBuffer (Some today) [] false in
    match file w with
    | Stored day entries =>
        if is_day day today then
          let b := mkBuffer (Some today) entries false in
          (b, with_buffer b w)
        else
          (fresh, with_buffer fresh (logged INFO "Neuer Tag erkannt, PV-Tagesdaten zurueckgesetzt" w))
    | NoFile =>
        (fresh, with_buffer fresh (logged INFO "Neuer Tag erkannt, PV-Tagesdaten zurueckgesetzt" w))
    | Unreadable =>
        (fresh, with_buffer fresh (logged ERROR "Fehler beim Laden der PV-Tagesdaten" w))
    end.

(** [save_pv_daily_data()] (lines 859-879); [write_ok] tells whether the
    write of the temporary file and its [os.replace] go through. *)
Definition save_pv_daily_data (write_ok : bool) (w : World) : World :=
  if negb (dirty (buffer w)) then w
  else if write_ok then
    mkWorld (mkBuffer (date (buffer w)) (measurements (buffer w)) false)
            (Stored (date (buffer w)) (measurements (buffer w)))
            (log w)
  else logged ERROR "Fehler beim Speichern der PV-Tagesdaten" w.

(** The slice [[::2]]. *)
Fixpoint every_other (l : list Measurement) : list Measurement :=
  match l with
  | [] => []
  | x :: rest =>
      x :: match rest with
           | [] => []
           | _ :: rest' => every_other rest'
           end
  end.

(** What one call of [add_pv_measurement] reads from the outside world:
    the system date of [load_pv_daily_data], the Zurich date and time of
    day, and whether the two writes it may attempt go through. *)
Record AddEnv := mkAddEnv {
  today_system : string;
  today_local : string;
  time_of_day : string;
  rollover_write_ok : bool;
  flush_write_ok : bool
}.

(** [add_pv_measurement(power)] (lines 882-943). *)
Definition add_pv_measurement (env : AddEnv) (pw : option Q) (w : World)
  : list Measurement * World :=
  match pw with
  | None => (measurements (buffer w), w)
  | Some p =>
      if leb p 0 then (measurements (buffer w), w)
      else
        let (_, w1) := load_pv_daily_data (today_system env) w in
        let w2 :=
          if is_day (date (buffer w1)) (today_local env) then w1
          else
            let f :=
              if dirty (buffer w1) && rollover_write_ok env
              then Stored (date (buffer w1)) (measurements (buffer w1))
              else file w1 in
            mkWorld (mkBuffer (Some (today_local env)) [] false) f (log w1) in
        let appended :=
          measurements (buffer w2) ++ [mkMeasurement (time_of_day env) p] in
        let w3 :=
          if (MAX_PV_MEASUREMENTS_PER_DAY <? List.length appended)%nat
          then logged DEBUG "PV-Messungen reduziert"
                      (with_buffer (mkBuffer (date (buffer w2)) (every_other appended) true) w2)
          else with_buffer (mkBuffer (date (buffer w2)) appended true) w2 in
        let should_flush :=
          (List.length (measurements (buffer w3)) mod _pv_flush_interval =? 0)%nat in
        let measurements_copy := measurements (buffer w3) in
        (measurements_copy,
         if should_flush then save_pv_daily_data (flush_write_ok env) w3 else w3)
  end.

(** A process start on the file left by an earlier run. *)
Definition restart (w : World) : World := mkWorld buffer0 (file w) [].

(** The buffer and the file hold at most the day's maximum. *)
Definition bounded (w : World) : Prop :=
  (List.length (measurements (buffer w)) <= MAX_PV_MEASUREMENTS_PER_DAY)%nat /\
  match file w with
  | Stored _ entries => (List.length entries <= MAX_PV_MEASUREMENTS_PER_DAY)%nat
  | _ => True
  end.

End PvBuffer.

(** * Properties of the Python primitives *)

Module PyFacts.
Import Py.

Lemma ltb_lt (x y : Q) : ltb x y = true <-> x < y.
Proof.
  unfold ltb. rewrite negb_true_iff, <- not_true_iff_false, Qle_bool_iff.
  split; [apply Qnot_le_lt | apply Qlt_not_le].
Qed.

Lemma ltb_ge (x y : Q) : ltb x y = false <-> y <= x.
Proof.
  unfold ltb. rewrite negb_false_iff. apply Qle_bool_iff.
Qed.

Lemma half (x : Q) : x / 2 == x * (1 # 2).
Proof. unfold Qdiv. reflexivity. Qed.

Lemma max_cases (a b : Q) :
  (Py.max a b = b /\ a < b) \/ (Py.max a b = a /\ b <= a).
Proof.
  unfold Py.max. destruct (ltb a b) eqn:H; [left | right]; split; auto.
  - now apply ltb_lt.
  - now apply ltb_ge.
Qed.

Lemma leb_le (x y : Q) : leb x y = true <-> x <= y.
Proof. apply Qle_bool_iff. Qed.

Lemma leb_gt (x y : Q) : leb x y = false <-> y < x.
Proof.
  unfold leb. rewrite <- not_true_iff_false, Qle_bool_iff.
  split; [apply Qnot_le_lt | apply Qlt_not_le].
Qed.

Lemma max0_nonneg (x : Q) : 0 <= Py.max 0 x.
Proof. destruct (max_cases 0 x) as [[-> H] | [-> H]]; lra. Qed.

(** [int] truncates toward zero. *)

Lemma int_floor (q : Q) :
  0 <= q -> (0 <= int q)%Z /\ inject_Z (int q) <= q /\ q < inject_Z (int q) + 1.
Proof.
  destruct q as [n d]. unfold Qle, Qlt, int, Qplus, inject_Z. cbn [Qnum Qden].
  intros Hn. rewrite Z.mul_1_r in Hn. cbn in Hn.
  rewrite Z.quot_div_nonneg by lia.
  pose proof (Z.mul_div_le n (Z.pos d) ltac:(lia)).
  pose proof (Z.mul_succ_div_gt n (Z.pos d) ltac:(lia)).
  pose proof (Z.div_pos n (Z.pos d) ltac:(lia) ltac:(lia)).
  change (Z.pos (1 * 1)) with 1%Z. repeat split; nia.
Qed.

Lemma int_nonpos (q : Q) : q <= 0 -> (int q <= 0)%Z.
Proof.
  destruct q as [n d]. unfold Qle, int. cbn [Qnum Qden].
  intros Hn. rewrite Z.mul_1_r in Hn. cbn in Hn.
  assert (Hq : Z.quot n (Z.pos d) = (- Z.quot (- n) (Z.pos d))%Z).
  { rewrite Z.quot_opp_l by lia. lia. }
  rewrite Hq. pose proof (Z.quot_pos (- n) (Z.pos d) ltac:(lia) ltac:(lia)). lia.
Qed.

Lemma int_positive (q : Q) :
  (0 < int q)%Z -> 1 <= inject_Z (int q) /\ inject_Z (int q) <= q.
Proof.
  intros H.
  destruct (Qlt_le_dec 0 q) as [Hp | Hn].
  - destruct (@int_floor q) as (_ & Hl & _); [lra|].
    split; [|exact Hl].
    change 1 with (inject_Z 1). rewrite <- Zle_Qle. lia.
  - apply int_nonpos in Hn. lia.
Qed.

End PyFacts.

(** * Properties of the Skyfield helpers *)

Module AstroFacts.
Import Py Astro PyFacts.

(** ** The invariant of the module globals *)

Lemma consistent_globals0 : consistent globals0.
Proof. split; simpl; discriminate. Qed.

Lemma consistent_logging lvl msg g : consistent g -> consistent (logging lvl msg g).
Proof.
  intros [Ha Hf]. split; simpl.
  - exact Ha.
  - intros H. destruct (Hf H) as [m Hm]. exists m. apply in_or_app. now left.
Qed.

Lemma init_skyfield_consistent d g :
  consistent g -> consistent (snd (init_skyfield d g)).
Proof.
  intros Hc. unfold init_skyfield.
  destruct (SKYFIELD_AVAILABLE g) as [[|]|] eqn:Hav; simpl; try exact Hc;
    destruct d; simpl; try exact Hc;
    split; simpl; try discriminate; intros _;
    try (split; [reflexivity | discriminate]);
    eexists; apply in_or_app; right; simpl; left; reflexivity.
Qed.

Lemma init_skyfield_ready d g g1 :
  consistent g -> init_skyfield d g = (true, g1) ->
  exists obs, ready obs g1.
Proof.
  intros [Ha _]. unfold init_skyfield, ready.
  destruct (SKYFIELD_AVAILABLE g) as [[|]|] eqn:Hav.
  - intros E; injection E as <-. destruct (Ha eq_refl) as [Hts Hobs].
    destruct (OBSERVER g) as [obs|]; [|congruence]. exists obs. auto.
  - destruct d; try discriminate. intros E; injection E as <-.
    exists obs. simpl. auto.
  - destruct d; try discriminate. intros E; injection E as <-.
    exists obs. simpl. auto.
Qed.

Lemma init_skyfield_when_ready d obs g :
  ready obs g -> init_skyfield d g = (true, g).
Proof. intros [Hav _]. unfold init_skyfield. now rewrite Hav. Qed.

Lemma init_skyfield_unavailable_logged d g :
  consistent g -> fst (init_skyfield d g) = false ->
  SKYFIELD_AVAILABLE (snd (init_skyfield d g)) = Some false /\
  exists msg, In (ERROR, msg) (LOG (snd (init_skyfield d g))).
Proof.
  intros Hc Hf. pose proof (init_skyfield_consistent d Hc) as [_ Hlog].
  assert (Hav : SKYFIELD_AVAILABLE (snd (init_skyfield d g)) = Some false).
  { revert Hf. unfold init_skyfield.
    destruct (SKYFIELD_AVAILABLE g) as [[|]|] eqn:Hav; simpl; try discriminate;
      destruct d; simpl; try discriminate; auto. }
  split; [exact Hav | exact (Hlog Hav)].
Qed.

(** The helpers keep the invariant, so it holds of every state the
    process reaches from [globals0]. *)
Lemma get_sun_elevation_consistent d t g :
  consistent g -> consistent (snd (get_sun_elevation_skyfield d t g)).
Proof.
  intros Hc. pose proof (init_skyfield_consistent d Hc) as H1.
  unfold get_sun_elevation_skyfield.
  destruct (init_skyfield d g) as [ok g1]. cbn [snd] in H1.
  destruct ok; cbn [negb]; [|exact H1].
  destruct (OBSERVER g1) as [observer|]; [|exact H1].
  destruct (observer t); [exact H1 | now apply consistent_logging].
Qed.

Lemma bisect_consistent n d target rising : forall s e g,
  consistent g -> consistent (snd (bisect n d target rising s e g)).
Proof.
  induction n as [|n IH]; intros s e g Hc; [exact Hc|].
  cbn [bisect]. unfold bisect_step.
  destruct (tt_jd g ((s + e) / 2)) as [mid|exn]; [|exact Hc].
  pose proof (get_sun_elevation_consistent d mid Hc) as H1.
  destruct (get_sun_elevation_skyfield d mid g) as [v g1]. cbn [snd] in H1.
  destruct rising; [destruct (ltb v target) | destruct (ltb target v)];
    apply IH; exact H1.
Qed.

Lemma find_sun_crossing_time_consistent d target s e rising g :
  consistent g -> consistent (snd (find_sun_crossing_time d target s e rising g)).
Proof.
  intros Hc. pose proof (init_skyfield_consistent d Hc) as H1.
  unfold find_sun_crossing_time.
  destruct (init_skyfield d g) as [ok g1]. cbn [snd] in H1.
  destruct ok; cbn [negb]; [|exact H1].
  pose proof (bisect_consistent 30 d target rising s e H1) as H2.
  destruct (bisect 30 d target rising s e g1) as [[[s30 e30]|exn] g2];
    cbn [snd] in H2; [|exact H2].
  destruct (tt_jd g2 ((s30 + e30) / 2)); exact H2.
Qed.

(** ** The elevation and the bisection on a loaded ephemeris *)

Lemma get_sun_elevation_ready d obs t g :
  ready obs g ->
  fst (get_sun_elevation_skyfield d t g) = elevation_of obs t /\
  ready obs (snd (get_sun_elevation_skyfield d t g)).
Proof.
  intros Hr. unfold get_sun_elevation_skyfield, elevation_of.
  rewrite (init_skyfield_when_ready d Hr). simpl.
  destruct Hr as (Hav & Hts & Hobs). rewrite Hobs.
  destruct (obs t); simpl; repeat split; auto.
Qed.

Lemma bisect_step_ready d obs target rising s e g :
  ready obs g ->
  exists g1,
    bisect_step d target rising s e g
    = (Return (halve (elevation_of obs) target rising (s, e)), g1) /\
    ready obs g1.
Proof.
  intros Hr. unfold bisect_step, tt_jd, halve.
  destruct (get_sun_elevation_ready d ((s + e) / 2) Hr) as [Hv Hr1].
  destruct Hr as (Hav & Hts & Hobs). rewrite Hts.
  destruct (get_sun_elevation_skyfield d ((s + e) / 2) g) as [v g1].
  simpl in Hv, Hr1. subst v. exists g1. split; [|exact Hr1].
  destruct rising;
    [destruct (ltb (elevation_of obs ((s + e) / 2)) target)
    |destruct (ltb target (elevation_of obs ((s + e) / 2)))]; reflexivity.
Qed.

Lemma bisect_ready n d obs target rising : forall s e g,
  ready obs g ->
  exists g1,
    bisect n d target rising s e g
    = (Return (brackets n (elevation_of obs) target rising (s, e)), g1) /\
    ready obs g1.
Proof.
  induction n as [|n IH]; intros s e g Hr.
  - exists g. split; [reflexivity | exact Hr].
  - destruct (bisect_step_ready d target rising s e Hr) as (g1 & Hs & Hr1).
    cbn [bisect brackets]. rewrite Hs.
    destruct (halve (elevation_of obs) target rising (s, e)) as [s1 e1].
    exact (IH s1 e1 g1 Hr1).
Qed.

Lemma find_sun_crossing_time_ready d obs target s e rising g g1 :
  init_skyfield d g = (true, g1) -> ready obs g1 ->
  let b := brackets 30 (elevation_of obs) target rising (s, e) in
  fst (find_sun_crossing_time d target s e rising g)
  = Return (Some ((fst b + snd b) / 2)).
Proof.
  intros Hi Hr b. unfold find_sun_crossing_time. rewrite Hi. simpl negb. cbv iota.
  destruct (bisect_ready 30 d target rising s e Hr) as (g2 & Hb & Hr2).
  rewrite Hb. fold b. destruct b as [s30 e30]. unfold tt_jd.
  destruct Hr2 as (_ & Hts & _). rewrite Hts. reflexivity.
Qed.

(** ** The bracket under bisection *)

Lemma halve_cases E target rising (s e : Time) :
  let mid : Time := (s + e) / 2 in
  (halve E target rising (s, e) = (mid, e) /\
   (if rising then E mid < target else target < E mid)) \/
  (halve E target rising (s, e) = (s, mid) /\
   (if rising then target <= E mid else E mid <= target)).
Proof.
  unfold halve. destruct rising.
  - destruct (ltb (E ((s + e) / 2)) target) eqn:H; [left | right]; split; auto.
    + now apply ltb_lt. + now apply ltb_ge.
  - destruct (ltb target (E ((s + e) / 2))) eqn:H; [left | right]; split; auto.
    + now apply ltb_lt. + now apply ltb_ge.
Qed.

Lemma brackets_shrink n E target rising : forall s e : Time,
  s <= e ->
  let b := brackets n E target rising (s, e) in
  s <= fst b /\ fst b <= snd b /\ snd b <= e.
Proof.
  induction n as [|n IH]; intros s e Hle; cbn [brackets].
  - simpl. repeat split; auto; apply Qle_refl.
  - pose proof (half (s + e)) as Hh.
    destruct (halve_cases E target rising s e) as [[-> _] | [-> _]].
    + destruct (IH ((s + e) / 2) e) as (H1 & H2 & H3); [lra|].
      cbv zeta. repeat split; auto; lra.
    + destruct (IH s ((s + e) / 2)) as (H1 & H2 & H3); [lra|].
      cbv zeta. repeat split; auto; lra.
Qed.

Lemma brackets_succ n E target rising : forall b : Time * Time,
  brackets (S n) E target rising b = halve E target rising (brackets n E target rising b).
Proof.
  induction n as [|n IH]; intros b.
  - reflexivity.
  - change (brackets (S (S n)) E target rising b)
      with (brackets (S n) E target rising (halve E target rising b)).
    rewrite IH. reflexivity.
Qed.

Lemma brackets_width n E target rising : forall s e : Time,
  let b := brackets n E target rising (s, e) in
  (snd b - fst b) * inject_Z (2 ^ Z.of_nat n) == e - s.
Proof.
  induction n as [|n IH]; intros s e; cbn [brackets].
  - cbn [fst snd]. change (inject_Z (2 ^ Z.of_nat 0)) with 1. lra.
  - pose proof (half (s + e)) as Hh.
    assert (Hp : inject_Z (2 ^ Z.of_nat (S n)) == 2 * inject_Z (2 ^ Z.of_nat n)).
    { rewrite Nat2Z.inj_succ, Z.pow_succ_r by lia. rewrite inject_Z_mult. reflexivity. }
    destruct (halve_cases E target rising s e) as [[-> _] | [-> _]].
    + specialize (IH ((s + e) / 2) e). cbv zeta in IH |- *.
      destruct (brackets n E target rising ((s + e) / 2, e)) as [s' e'].
      cbn [fst snd] in *. rewrite Hp. nra.
    + specialize (IH s ((s + e) / 2)). cbv zeta in IH |- *.
      destruct (brackets n E target rising (s, (s + e) / 2)) as [s' e'].
      cbn [fst snd] in *. rewrite Hp. nra.
Qed.

Lemma brackets_keep_crossing n E target rising s0 e0 c :
  crosses E target rising s0 e0 c ->
  forall s e : Time, s0 <= s -> e <= e0 -> s <= c <= e ->
  let b := brackets n E target rising (s, e) in
  fst b <= c <= snd b.
Proof.
  intros (Hc & Heq & Hmono). induction n as [|n IH]; intros s e Hs He Hin;
    cbn [brackets].
  - exact Hin.
  - pose proof (half (s + e)) as Hh.
    destruct (halve_cases E target rising s e) as [[-> Hd] | [-> Hd]]; cbv zeta in Hd.
    + apply IH; try lra.
      split; [|tauto].
      destruct (Qlt_le_dec c ((s + e) / 2)) as [Hlt | Hge]; [exfalso | exact Hge].
      specialize (Hmono c ((s + e) / 2)).
      destruct rising.
      * assert (E c < E ((s + e) / 2)) by (apply Hmono; lra). lra.
      * assert (E ((s + e) / 2) < E c) by (apply Hmono; lra). lra.
    + apply IH; try lra.
      split; [tauto|].
      destruct (Qlt_le_dec ((s + e) / 2) c) as [Hlt | Hge]; [exfalso | exact Hge].
      specialize (Hmono ((s + e) / 2) c).
      destruct rising.
      * assert (E ((s + e) / 2) < E c) by (apply Hmono; lra). lra.
      * assert (E c < E ((s + e) / 2)) by (apply Hmono; lra). lra.
Qed.

(** ** Sampling for the solar noon *)

Lemma noon_sample_ready d obs from_datetime seen acc p g :
  ready obs g ->
  noon_seen (noon_elevation obs from_datetime) seen acc ->
  exists acc' g',
    noon_sample d from_datetime (Return acc, g) p = (Return acc', g') /\
    noon_seen (noon_elevation obs from_datetime) (seen ++ [p]) acc' /\
    ready obs g'.
Proof.
  intros Hr Hinv. destruct acc as [[mx h] m]. destruct p as [hour minute].
  unfold noon_sample, tt_jd.
  destruct (get_sun_elevation_ready d (from_datetime hour minute) Hr) as [Hv Hr1].
  destruct Hr as (_ & Hts & _). rewrite Hts.
  destruct (get_sun_elevation_skyfield d (from_datetime hour minute) g) as [elev g1].
  simpl in Hv, Hr1.
  change (elevation_of obs (from_datetime hour minute))
    with (noon_elevation obs from_datetime (hour, minute)) in Hv.
  set (E := noon_elevation obs from_datetime) in *.
  destruct Hinv as [Hle Hcase].
  destruct (ltb mx elev) eqn:Hcmp.
  - apply ltb_lt in Hcmp. exists (elev, hour, minute), g1.
    split; [reflexivity|]. split; [|exact Hr1]. split.
    + intros q Hq. apply in_app_or in Hq. destruct Hq as [Hq | [<- | []]].
      * specialize (Hle q Hq). lra.
      * rewrite Hv. apply Qle_refl.
    + right. repeat split.
      * apply in_or_app. right. now left.
      * exact Hv.
      * destruct Hcase as [(-> & _) | (_ & _ & Hpos)]; lra.
  - apply ltb_ge in Hcmp. exists (mx, h, m), g1.
    split; [reflexivity|]. split; [|exact Hr1]. split.
    + intros q Hq. apply in_app_or in Hq. destruct Hq as [Hq | [<- | []]].
      * exact (Hle q Hq).
      * rewrite <- Hv. exact Hcmp.
    + destruct Hcase as [(Hz & Hh & Hm & Hall) | (Hin & Heq & Hpos)].
      * left. repeat split; auto.
        intros q Hq. apply in_app_or in Hq. destruct Hq as [Hq | [<- | []]].
        -- exact (Hall q Hq).
        -- rewrite <- Hv. rewrite Hz in Hcmp. exact Hcmp.
      * right. repeat split; auto. apply in_or_app. now left.
Qed.

Lemma noon_fold_ready d obs from_datetime : forall l seen acc g,
  ready obs g ->
  noon_seen (noon_elevation obs from_datetime) seen acc ->
  exists acc' g',
    List.fold_left (noon_sample d from_datetime) l (Return acc, g) = (Return acc', g') /\
    noon_seen (noon_elevation obs from_datetime) (seen ++ l) acc' /\
    ready obs g'.
Proof.
  induction l as [|p l IH]; intros seen acc g Hr Hinv.
  - exists acc, g. rewrite app_nil_r. auto.
  - destruct (@noon_sample_ready d obs from_datetime seen acc p g Hr Hinv) as (acc1 & g1 & Hs & Hinv1 & Hr1).
    destruct (IH (seen ++ [p]) acc1 g1 Hr1 Hinv1) as (acc' & g' & Hf & Hinv' & Hr').
    exists acc', g'. cbn [List.fold_left]. rewrite Hs, Hf.
    rewrite <- app_assoc in Hinv'. auto.
Qed.

Lemma solar_noon_ready d obs from_datetime g g1 :
  init_skyfield d g = (true, g1) -> ready obs g1 ->
  exists mx h m,
    fst (_calculate_solar_noon d from_datetime g)
    = (Py.max mx 10, noon_label (h, m)) /\
    noon_seen (noon_elevation obs from_datetime) noon_grid (mx, h, m).
Proof.
  intros Hi Hr. unfold _calculate_solar_noon. rewrite Hi. simpl negb. cbv iota.
  assert (H0 : noon_seen (noon_elevation obs from_datetime) [] (0, 12%Z, 0%Z)).
  { split; [intros p []|]. left. repeat split; auto. intros p []. }
  destruct (@noon_fold_ready d obs from_datetime noon_grid [] _ g1 Hr H0)
    as ([[mx h] m] & g' & Hf & Hinv & _).
  destruct (List.fold_left _ _ _) as [o g2] eqn:Hfold.
  injection Hf as -> ->.
  exists mx, h, m. split; [reflexivity | exact Hinv].
Qed.

(** ** The crossing search *)

(** C7. [find_sun_crossing_time] bisects the given bracket exactly 30 times
    and returns the midpoint of the last bracket: that bracket is the 30th
    iterate of the halving step and its width is the initial width divided
    by 2^30.  When the elevation is strictly monotonic over the bracket and
    crosses the target at [c] inside it, [c] stays in every bracket, so for
    a bracket of at most 2^31 seconds (any search interval of hours, days
    or years) the returned instant is within one second of [c]. *)
Theorem find_sun_crossing_time_converges :
  forall d g g1 obs target (start_t end_t c : Time) rising,
    consistent g ->
    init_skyfield d g = (true, g1) ->
    OBSERVER g1 = Some obs ->
    crosses (elevation_of obs) target rising start_t end_t c ->
    end_t - start_t <= 2147483648 * second ->
    exists s30 e30 : Time,
      brackets 30 (elevation_of obs) target rising (start_t, end_t) = (s30, e30) /\
      fst (find_sun_crossing_time d target start_t end_t rising g)
      = Return (Some ((s30 + e30) / 2)) /\
      (e30 - s30) * 1073741824 == end_t - start_t /\
      s30 <= c <= e30 /\
      Qabs ((s30 + e30) / 2 - c) <= second.
Proof.
  intros d g g1 obs target start_t end_t c rising Hc Hi Hobs Hx Hlen.
  destruct (@init_skyfield_ready d g g1 Hc Hi) as (obs' & Hr).
  assert (obs' = obs) as -> by (destruct Hr as (_ & _ & Ho); congruence).
  pose proof (@find_sun_crossing_time_ready d obs target start_t end_t rising g g1 Hi Hr) as Hf.
  pose proof (@brackets_width 30 (elevation_of obs) target rising start_t end_t) as Hw.
  assert (Hin : start_t <= c <= end_t) by (destruct Hx; assumption).
  pose proof (@brackets_keep_crossing 30 _ _ _ _ _ _ Hx start_t end_t
                (Qle_refl _) (Qle_refl _) Hin) as Hk.
  cbv zeta in Hf, Hw, Hk.
  destruct (brackets 30 (elevation_of obs) target rising (start_t, end_t)) as [s30 e30].
  cbn [fst snd] in Hf, Hw, Hk.
  change (inject_Z (2 ^ Z.of_nat 30)) with 1073741824 in Hw.
  exists s30, e30. repeat split; try tauto.
  apply Qabs_Qle_condition. pose proof (half (s30 + e30)) as Hh.
  unfold second in *. split; lra.
Qed.

(** A twelve-hour bracket on the curve [E t = t], crossing 0 at its
    start. *)
Lemma find_sun_crossing_time_converges_witness :
  exists s30 e30 : Time,
    brackets 30 (elevation_of (fun t => Some t)) 0 true (0, 1 # 2) = (s30, e30) /\
    fst (find_sun_crossing_time (EphLoaded (fun t => Some t)) 0 0 (1 # 2) true globals0)
    = Return (Some ((s30 + e30) / 2)) /\
    (e30 - s30) * 1073741824 == (1 # 2) - 0 /\
    s30 <= 0 <= e30 /\
    Qabs ((s30 + e30) / 2 - 0) <= second.
Proof.
  apply (@find_sun_crossing_time_converges
           (EphLoaded (fun t => Some t)) globals0
           (logging INFO msg_init_ok (mkGlobals true (Some (fun t => Some t)) (Some true) []))
           (fun t => Some t) 0 0 (1 # 2) 0 true).
  - exact consistent_globals0.
  - reflexivity.
  - reflexivity.
  - unfold crosses, elevation_of. repeat split.
    + apply Qle_refl.
    + discriminate.
    + intros a b _ Hab _. exact Hab.
  - unfold second. discriminate.
Defined.

(** C10. For a bracket with [start_t <= end_t] and a loaded ephemeris, the
    loop of [find_sun_crossing_time] runs through a sequence of brackets
    [b 0], ..., [b 30]: [b 0] is the given bracket, each iteration replaces
    one endpoint of the bracket by its midpoint, every [b k] is a bracket
    inside the given one, and each lies inside the one before it.  The
    function returns the midpoint of [b 30], an instant of the given
    bracket. *)
Theorem find_sun_crossing_time_in_bracket :
  forall d g g1 target (start_t end_t : Time) rising,
    consistent g ->
    init_skyfield d g = (true, g1) ->
    start_t <= end_t ->
    exists b : nat -> Time * Time,
      b O = (start_t, end_t) /\
      (forall k, (k <= 30)%nat ->
         fst (bisect k d target rising start_t end_t g1) = Return (b k)) /\
      (forall k, (k < 30)%nat ->
         let (s, e) := b k in
         let mid : Time := (s + e) / 2 in
         (b (S k) = (mid, e) \/ b (S k) = (s, mid)) /\
         s <= fst (b (S k)) /\ snd (b (S k)) <= e) /\
      (forall k, (k <= 30)%nat ->
         start_t <= fst (b k) /\ fst (b k) <= snd (b k) /\ snd (b k) <= end_t) /\
      fst (find_sun_crossing_time d target start_t end_t rising g)
      = Return (Some ((fst (b 30%nat) + snd (b 30%nat)) / 2)) /\
      start_t <= (fst (b 30%nat) + snd (b 30%nat)) / 2 <= end_t.
Proof.
  intros d g g1 target start_t end_t rising Hc Hi Hle.
  destruct (@init_skyfield_ready d g g1 Hc Hi) as (obs & Hr).
  set (E := elevation_of obs).
  exists (fun k => brackets k E target rising (start_t, end_t)).
  assert (Hin : forall k,
             start_t <= fst (brackets k E target rising (start_t, end_t)) /\
             fst (brackets k E target rising (start_t, end_t))
             <= snd (brackets k E target rising (start_t, end_t)) /\
             snd (brackets k E target rising (start_t, end_t)) <= end_t).
  { intros k. exact (@brackets_shrink k E target rising start_t end_t Hle). }
  split; [reflexivity|]. split; [|split; [|split; [|split]]].
  - intros k _.
    destruct (@bisect_ready k d obs target rising start_t end_t g1 Hr) as (g2 & Hb & _).
    rewrite Hb. reflexivity.
  - intros k _. rewrite brackets_succ.
    destruct (Hin k) as (_ & Hk & _).
    destruct (brackets k E target rising (start_t, end_t)) as [s e].
    cbn [fst snd] in Hk. cbv zeta.
    pose proof (half (s + e)) as Hh.
    destruct (halve_cases E target rising s e) as [[-> _] | [-> _]];
      cbn [fst snd]; (split; [auto | split; lra]).
  - intros k _. apply Hin.
  - exact (@find_sun_crossing_time_ready d obs target start_t end_t rising g g1 Hi Hr).
  - destruct (Hin 30%nat) as (H1 & H2 & H3).
    pose proof (half (fst (brackets 30 E target rising (start_t, end_t))
                      + snd (brackets 30 E target rising (start_t, end_t)))) as Hh.
    split; lra.
Qed.

(** A day-long bracket around a falling crossing of -6 degrees. *)
Lemma find_sun_crossing_time_in_bracket_witness :
  exists b : nat -> Time * Time,
    b O = (0, 1) /\
    (forall k, (k <= 30)%nat ->
       fst (bisect k (EphLoaded (fun t => Some (- t))) (-6) false 0 1
              (logging INFO msg_init_ok
                 (mkGlobals true (Some (fun t => Some (- t))) (Some true) [])))
       = Return (b k)) /\
    (forall k, (k < 30)%nat ->
       let (s, e) := b k in
       let mid : Time := (s + e) / 2 in
       (b (S k) = (mid, e) \/ b (S k) = (s, mid)) /\
       s <= fst (b (S k)) /\ snd (b (S k)) <= e) /\
    (forall k, (k <= 30)%nat ->
       0 <= fst (b k) /\ fst (b k) <= snd (b k) /\ snd (b k) <= 1) /\
    fst (find_sun_crossing_time (EphLoaded (fun t => Some (- t))) (-6) 0 1 false globals0)
    = Return (Some ((fst (b 30%nat) + snd (b 30%nat)) / 2)) /\
    0 <= (fst (b 30%nat) + snd (b 30%nat)) / 2 <= 1.
Proof.
  apply (@find_sun_crossing_time_in_bracket
           (EphLoaded (fun t => Some (- t))) globals0
           (logging INFO msg_init_ok
                    (mkGlobals true (Some (fun t => Some (- t))) (Some true) []))
           (-6) 0 1 false).
  - exact consistent_globals0.
  - reflexivity.
  - discriminate.
Defined.

(** ** Degradation without the ephemeris *)

(** The missing ephemeris file is reported once: a later look at the
    still missing file leaves the globals and the log as they are. *)
Lemma missing_ephemeris_reported_once g :
  SKYFIELD_AVAILABLE g = Some false -> init_skyfield EphMissing g = (false, g).
Proof. intros H. unfold init_skyfield. now rewrite H. Qed.

(** C9. When the ephemeris is unavailable at call time ([init_skyfield]
    answers [False]), [get_sun_elevation_skyfield] returns 0 for every
    instant and the process log holds the error that reported the failure;
    [find_sun_crossing_time] returns [None], and does not raise, for every
    target, bracket and direction. *)
Theorem unavailable_ephemeris_degrades :
  forall d g,
    consistent g ->
    fst (init_skyfield d g) = false ->
    (forall t,
        fst (get_sun_elevation_skyfield d t g) = 0 /\
        exists msg, In (ERROR, msg) (LOG (snd (get_sun_elevation_skyfield d t g)))) /\
    (forall target start_t end_t rising,
        fst (find_sun_crossing_time d target start_t end_t rising g) = Return None).
Proof.
  intros d g Hc Hf.
  destruct (@init_skyfield_unavailable_logged d g Hc Hf) as [_ Hlog].
  unfold get_sun_elevation_skyfield, find_sun_crossing_time.
  destruct (init_skyfield d g) as [ok g1]. simpl in Hf, Hlog. subst ok.
  split; intros; simpl; auto.
Qed.

(** The first call of a process whose ephemeris file is missing. *)
Lemma unavailable_ephemeris_degrades_witness :
  (forall t,
      fst (get_sun_elevation_skyfield EphMissing t globals0) = 0 /\
      exists msg,
        In (ERROR, msg) (LOG (snd (get_sun_elevation_skyfield EphMissing t globals0)))) /\
  (forall target start_t end_t rising,
      fst (find_sun_crossing_time EphMissing target start_t end_t rising globals0)
      = Return None).
Proof.
  apply (@unavailable_ephemeris_degrades EphMissing globals0).
  - exact consistent_globals0.
  - reflexivity.
Defined.

(** ** The solar noon *)

(** C8, as stated, fails: with the sun at 5 degrees throughout the window
    the method returns 10 degrees, which is no sample of the grid. *)
Lemma solar_noon_not_grid_maximum :
  let obs : Observer := fun _ => Some 5 in
  let from_datetime : Z -> Z -> Time := fun h m => inject_Z (h * 60 + m) in
  let r := fst (_calculate_solar_noon (EphLoaded obs) from_datetime globals0) in
  r = (10, "11:00"%string) /\
  ~ is_grid_maximum (noon_elevation obs from_datetime) noon_grid (fst r).
Proof.
  cbv zeta. split; [reflexivity|].
  intros [(p & _ & Heq) _]. vm_compute in Heq. discriminate.
Qed.

(** C8, amended. With a loaded ephemeris [_calculate_solar_noon] samples
    the elevation on the 5-minute grid from 11:00 to 14:55 and returns the
    larger of 10 degrees and the maximum of the samples; the returned time
    is the grid time of a sample that attains the maximum when some sample
    is positive, and 12:00 when none is. *)
Theorem solar_noon_sampled_maximum :
  forall d g g1 obs from_datetime,
    consistent g ->
    init_skyfield d g = (true, g1) ->
    OBSERVER g1 = Some obs ->
    let E := noon_elevation obs from_datetime in
    let r := fst (_calculate_solar_noon d from_datetime g) in
    10 <= fst r /\
    (forall p, In p noon_grid -> E p <= fst r) /\
    (fst r = 10 \/ exists p, In p noon_grid /\ fst r = E p) /\
    ((exists p, In p noon_grid /\ 0 < E p) ->
     exists p, In p noon_grid /\ snd r = noon_label p /\
               is_grid_maximum E noon_grid (E p)) /\
    ((forall p, In p noon_grid -> E p <= 0) -> snd r = "12:00"%string).
Proof.
  intros d g g1 obs from_datetime Hc Hi Hobs E r.
  destruct (@init_skyfield_ready d g g1 Hc Hi) as (obs' & Hr).
  assert (obs' = obs) as -> by (destruct Hr as (_ & _ & Ho); congruence).
  destruct (@solar_noon_ready d obs from_datetime g g1 Hi Hr) as (mx & h & m & Hres & Hle & Hcase).
  fold E in Hle, Hcase. subst r. rewrite Hres. cbn [fst snd].
  destruct (max_cases mx 10) as [[-> Hlt] | [-> Hge]].
  - repeat split.
    + apply Qle_refl.
    + intros p Hp. specialize (Hle p Hp). lra.
    + now left.
    + intros (p & Hp & Hpos).
      destruct Hcase as [(-> & _ & _ & Hall) | (Hin & Heq & _)].
      * specialize (Hall p Hp). lra.
      * exists (h, m). repeat split; auto.
        -- exists (h, m). split; [exact Hin | apply Qeq_refl].
        -- intros q Hq. rewrite <- Heq. exact (Hle q Hq).
    + intros Hall. destruct Hcase as [(_ & -> & -> & _) | (Hin & Heq & Hpos)].
      * reflexivity.
      * specialize (Hall _ Hin). rewrite <- Heq in Hall. lra.
  - repeat split.
    + exact Hge.
    + exact Hle.
    + right. destruct Hcase as [(-> & _) | (Hin & Heq & _)].
      * exfalso. lra.
      * exists (h, m). auto.
    + intros (p & Hp & Hpos).
      destruct Hcase as [(-> & _ & _ & Hall) | (Hin & Heq & _)].
      * specialize (Hall p Hp). lra.
      * exists (h, m). repeat split; auto.
        -- exists (h, m). split; [exact Hin | apply Qeq_refl].
        -- intros q Hq. rewrite <- Heq. exact (Hle q Hq).
    + intros Hall. destruct Hcase as [(_ & -> & -> & _) | (Hin & Heq & Hpos)].
      * reflexivity.
      * specialize (Hall _ Hin). rewrite <- Heq in Hall. lra.
Qed.

(** The sun climbing through the whole window: the last sample wins. *)
Lemma solar_noon_sampled_maximum_witness :
  let obs : Observer := fun t => Some t in
  let from_datetime : Z -> Z -> Time := fun h m => inject_Z (h * 60 + m) in
  let E := noon_elevation obs from_datetime in
  let r := fst (_calculate_solar_noon (EphLoaded obs) from_datetime globals0) in
  10 <= fst r /\
  (forall p, In p noon_grid -> E p <= fst r) /\
  (fst r = 10 \/ exists p, In p noon_grid /\ fst r = E p) /\
  ((exists p, In p noon_grid /\ 0 < E p) ->
   exists p, In p noon_grid /\ snd r = noon_label p /\
             is_grid_maximum E noon_grid (E p)) /\
  ((forall p, In p noon_grid -> E p <= 0) -> snd r = "12:00"%string).
Proof.
  apply (@solar_noon_sampled_maximum
           (EphLoaded (fun t => Some t)) globals0
           (logging INFO msg_init_ok (mkGlobals true (Some (fun t => Some t)) (Some true) []))
           (fun t => Some t) (fun h m => inject_Z (h * 60 + m))).
  - exact consistent_globals0.
  - reflexivity.
  - reflexivity.
Defined.

End AstroFacts.

(** * Properties of the PV scheduler *)

Module PVFacts.
Import Py PV PyFacts.

(** ** The budget block *)

Lemma phase_min_nonneg later earlier : 0 <= phase_min later earlier.
Proof. apply max0_nonneg. Qed.

Lemma inject_Z_pos (n : Z) : (0 <? n)%Z = true -> 0 < inject_Z n.
Proof.
  intros H. apply Z.ltb_lt in H. unfold Qlt. simpl. lia.
Qed.

Lemma ratio_positive (minutes : Q) (n : Z) :
  (0 <? n)%Z && ltb 0 minutes = true -> 0 < minutes / inject_Z n * 60.
Proof.
  intros H. apply andb_true_iff in H. destruct H as [Hn Hm].
  apply inject_Z_pos in Hn. apply ltb_lt in Hm.
  assert (0 < minutes / inject_Z n) by (apply Qlt_shift_div_l; lra).
  lra.
Qed.

Lemma pv_budget_positive max_queries w :
  0 < interval_ramp (pv_budget max_queries w) /\
  0 < interval_core (pv_budget max_queries w).
Proof.
  unfold pv_budget. destruct (leb (weighted_total w) 0).
  - simpl. split; reflexivity.
  - cbv zeta. cbn [interval_ramp interval_core]. split.
    + match goal with |- 0 < (if ?c then _ else _) => destruct c eqn:Hc end.
      * now apply ratio_positive.
      * reflexivity.
    + match goal with |- 0 < (if ?c then _ else _) => destruct c eqn:Hc end.
      * now apply ratio_positive.
      * reflexivity.
Qed.

Lemma implied_by_shares (b W a c e Q1 Q2 : Q) :
  0 < W -> W == a * 1 + c * 5 + e * 1 ->
  0 < a -> 0 < c -> 0 <= e -> 1 <= Q1 -> 1 <= Q2 ->
  Q1 <= b * (a * 1) / W -> Q2 <= b * (c * 5) / W ->
  a * 60 / (a / Q1 * 60) == Q1 /\
  c * 60 / (c / Q2 * 60) == Q2 /\
  e * 60 / (a / Q1 * 60) == e * Q1 / a /\
  e * Q1 / a <= b * (e * 1) / W /\
  Q1 + Q2 + e * Q1 / a <= b.
Proof.
  intros HW HWeq Ha Hc He H1 H2 L1 L2.
  assert (E1 : a * 60 / (a / Q1 * 60) == Q1) by (field; split; lra).
  assert (E2 : c * 60 / (c / Q2 * 60) == Q2) by (field; split; lra).
  assert (E3 : e * 60 / (a / Q1 * 60) == e * Q1 / a) by (field; split; lra).
  set (s := b / W).
  assert (S1 : b * (a * 1) / W == s * a) by (subst s; field; lra).
  assert (S2 : b * (c * 5) / W == s * (c * 5)) by (subst s; field; lra).
  assert (S3 : b * (e * 1) / W == s * e) by (subst s; field; lra).
  assert (SW : s * W == b) by (subst s; field; lra).
  assert (T : Q1 / a <= s) by (apply Qle_shift_div_r; [exact Ha | lra]).
  assert (E4 : e * Q1 / a == e * (Q1 / a)) by (field; lra).
  assert (T2 : e * (Q1 / a) <= e * s).
  { set (t := Q1 / a) in *. nra. }
  repeat split; auto.
  - rewrite E4, S3. lra.
  - rewrite E4. rewrite S1 in L1. rewrite S2 in L2.
    rewrite HWeq in SW. lra.
Qed.

(** C1, as stated, fails where a fixed default interval is stored.  Dawn
    at 00:00, sunrise at 00:10, sunset at 10:10, dusk at 13:30 and a budget
    of 280: the morning ramp's share of the budget is below one query, so
    the ramps are polled every 600 seconds; over the window the stored
    intervals imply 1 + 261 + 20 = 282 queries. *)
Lemma default_interval_exceeds_budget :
  let w := mkWindow 0 600000000 36600000000 48600000000 in
  let p := pv_budget 280 w in
  valid_window w /\
  queries p = Some (0, 261, 17)%Z /\
  interval_ramp p == 600 /\
  implied_queries p w dawn_ramp == 1 /\
  implied_queries p w core == 261 /\
  implied_queries p w dusk_ramp == 20 /\
  ~ implied_total p w <= 280.
Proof.
  cbv zeta. repeat split; try (vm_compute; congruence).
Qed.

(** C1, amended.  Whatever the window (in particular for every valid one)
    and the daily budget, the budget block yields strictly positive
    intervals for the three phases, and the query counts of the three
    phases, after the truncation and after the excess has been taken off
    the core count, sum to at most the budget.  When the morning-ramp
    count and the core count are positive, so that neither stored interval
    is a fixed default, the intervals imply exactly the morning-ramp count
    over the morning ramp and the core count over the core; over the
    evening ramp, polled at the morning ramp's interval, they imply the
    evening minutes times the morning count over the morning minutes,
    which is at most the evening ramp's share of the budget; and the total
    they imply over the window is at most the budget. *)
Theorem pv_budget_intervals_within_budget :
  forall max_queries w,
    let p := pv_budget max_queries w in
    (forall ph, 0 < phase_interval p ph) /\
    forall qm qc qe,
      queries p = Some (qm, qc, qe) ->
      (qm + qc + qe <= max_queries)%Z /\
      ((0 < qm)%Z -> (0 < qc)%Z ->
       implied_queries p w dawn_ramp == inject_Z qm /\
       implied_queries p w core == inject_Z qc /\
       implied_queries p w dusk_ramp
       == ramp_evening_min w * inject_Z qm / ramp_morning_min w /\
       implied_queries p w dusk_ramp
       <= inject_Z max_queries * (ramp_evening_min w * RAMP_WEIGHT) / weighted_total w /\
       implied_total p w <= inject_Z max_queries).
Proof.
  intros B w p. split.
  { destruct (pv_budget_positive B w). intros []; assumption. }
  intros qm qc qe Hq. subst p.
  unfold implied_total, implied_queries.
  cbn [phase_minutes phase_interval].
  revert Hq. unfold pv_budget.
  destruct (leb (weighted_total w) 0) eqn:Hw; [discriminate|].
  apply leb_gt in Hw. cbv zeta. cbn [queries interval_ramp interval_core].
  set (xm := inject_Z B * (ramp_morning_min w * RAMP_WEIGHT) / weighted_total w).
  set (xc := inject_Z B * (core_min w * CORE_WEIGHT) / weighted_total w).
  set (xe := inject_Z B * (ramp_evening_min w * RAMP_WEIGHT) / weighted_total w).
  set (qc0 := if (B <? int xm + int xc + int xe)%Z
              then (int xc - (int xm + int xc + int xe - B))%Z else int xc).
  intros Hq. injection Hq as Hqm Hqc Hqe.
  assert (Hsum : (qm + qc + qe <= B)%Z).
  { subst qm qc qe qc0.
    destruct (Z.ltb_spec B (int xm + int xc + int xe)); lia. }
  split; [exact Hsum|]. intros Pm Pc.
  assert (Hc0 : (qc <= int xc)%Z).
  { subst qc qc0. destruct (Z.ltb_spec B (int xm + int xc + int xe)); lia. }
  pose proof (phase_min_nonneg (sunrise_dt w) (civil_dawn w)) as Nm.
  pose proof (phase_min_nonneg (sunset_dt w) (sunrise_dt w)) as Nc.
  pose proof (phase_min_nonneg (civil_dusk w) (sunset_dt w)) as Ne.
  fold (ramp_morning_min w) in Nm. fold (core_min w) in Nc.
  fold (ramp_evening_min w) in Ne.
  destruct (@int_positive xm) as [Om Lm]; [lia|].
  destruct (@int_positive xc) as [Oc Lc]; [lia|].
  rewrite Hqm in Om, Lm.
  assert (Oc' : 1 <= inject_Z qc).
  { change 1 with (inject_Z 1). rewrite <- Zle_Qle. lia. }
  assert (Lc' : inject_Z qc <= xc).
  { apply Qle_trans with (inject_Z (int xc)); [|exact Lc]. rewrite <- Zle_Qle. exact Hc0. }
  assert (Xm : xm * weighted_total w == inject_Z B * (ramp_morning_min w * RAMP_WEIGHT))
    by (subst xm; field; lra).
  assert (Xc : xc * weighted_total w == inject_Z B * (core_min w * CORE_WEIGHT))
    by (subst xc; field; lra).
  unfold RAMP_WEIGHT, CORE_WEIGHT in Xm, Xc.
  assert (Am : 0 < ramp_morning_min w).
  { destruct (Qlt_le_dec 0 (ramp_morning_min w)) as [H|H]; [exact H|exfalso].
    assert (Z0 : ramp_morning_min w == 0) by lra.
    rewrite Z0 in Xm. nra. }
  assert (Ac : 0 < core_min w).
  { destruct (Qlt_le_dec 0 (core_min w)) as [H|H]; [exact H|exfalso].
    assert (Z0 : core_min w == 0) by lra.
    rewrite Z0 in Xc. nra. }
  assert (Cm : (0 <? qm)%Z && ltb 0 (ramp_morning_min w) = true).
  { apply andb_true_iff. split; [apply Z.ltb_lt; exact Pm | apply ltb_lt; exact Am]. }
  assert (Cc : (0 <? qc)%Z && ltb 0 (core_min w) = true).
  { apply andb_true_iff. split; [apply Z.ltb_lt; exact Pc | apply ltb_lt; exact Ac]. }
  rewrite Hqm, Hqc, Cm, Cc.
  destruct (@implied_by_shares (inject_Z B) (weighted_total w) (ramp_morning_min w)
              (core_min w) (ramp_evening_min w) (inject_Z qm) (inject_Z qc))
    as (E1 & E2 & E3 & E4 & E5); auto.
  { unfold weighted_total, RAMP_WEIGHT, CORE_WEIGHT. reflexivity. }
  repeat split.
  - exact E1.
  - exact E2.
  - exact E3.
  - rewrite E3. exact E4.
  - rewrite E1, E2, E3. exact E5.
Qed.

(** Dawn at 00:00, sunrise at 00:30, sunset at 10:30, dusk at 11:30 and a
    budget of 280. *)
Lemma pv_budget_intervals_within_budget_witness :
  let w := mkWindow 0 1800000000 37800000000 41400000000 in
  let p := pv_budget 280 w in
  queries p = Some (2, 271, 5)%Z /\
  (forall ph, 0 < phase_interval p ph) /\
  (2 + 271 + 5 <= 280)%Z /\
  implied_queries p w dawn_ramp == inject_Z 2 /\
  implied_queries p w core == inject_Z 271 /\
  implied_queries p w dusk_ramp
  == ramp_evening_min w * inject_Z 2 / ramp_morning_min w /\
  implied_queries p w dusk_ramp
  <= inject_Z 280 * (ramp_evening_min w * RAMP_WEIGHT) / weighted_total w /\
  implied_total p w <= inject_Z 280.
Proof.
  cbv zeta.
  assert (Hq : queries (pv_budget 280 (mkWindow 0 1800000000 37800000000 41400000000))
               = Some (2, 271, 5)%Z) by (vm_compute; reflexivity).
  destruct (@pv_budget_intervals_within_budget
              280 (mkWindow 0 1800000000 37800000000 41400000000)) as [Hpos H].
  destruct (H 2%Z 271%Z 5%Z Hq) as [Hs Hi].
  destruct Hi as (E1 & E2 & E3 & E4 & E5); [lia | lia |].
  repeat split; assumption.
Defined.

(** ** What the scheduling helpers leave alone *)

Lemma same_but_timers_refl s : same_but_timers s s.
Proof. repeat split. Qed.

Lemma schedule_pv_retry_state delay_ms start_queries s :
  same_but_timers s (fst (_schedule_pv_retry delay_ms start_queries s)).
Proof. repeat split. Qed.

Lemma schedule_next_day_state env s :
  same_but_timers s (fst (_schedule_next_day env s)).
Proof.
  unfold _schedule_next_day.
  destruct (fst (twilight_tomorrow env)); repeat split.
Qed.

Ltac break_if :=
  match goal with
  | |- context [if ?c then _ else _] => destruct c eqn:?
  | |- context [match ?c with (_, _) => _ end] => destruct c eqn:?
  end.

Lemma get_current_pv_interval_silent env s :
  forall e, In e (snd (_get_current_pv_interval env s)) -> exists msg, e = Log WARNING msg.
Proof.
  unfold _get_current_pv_interval. intros e.
  repeat (break_if || match goal with
                      | |- context [match ?c with Some _ => _ | None => _ end] =>
                          destruct c eqn:?
                      end); cbn [snd In]; intros H; try contradiction.
  destruct H as [<- | []]. eauto.
Qed.

Lemma count_result_state label result s :
  let s1 := fst (count_result label result s) in
  pv_attempts_today s1 = (pv_attempts_today s + 1)%Z /\
  pv_queries_today s1 = (pv_queries_today s + (if is_result result then 1 else 0))%Z /\
  pv_consecutive_failures s1
  = (if is_result result then 0 else pv_consecutive_failures s + 1)%Z /\
  pv_max_queries s1 = pv_max_queries s.
Proof.
  unfold count_result. destruct result as [r|]; cbn.
  - repeat split; lia.
  - repeat split; lia.
Qed.

Ltac finish_state :=
  match goal with
  | H : _schedule_next_day ?e ?x = (?y, _) |- same_but_timers ?x ?y =>
      let Hs := fresh in
      pose proof (schedule_next_day_state e x) as Hs; rewrite H in Hs; exact Hs
  | H : _schedule_pv_retry ?d ?b ?x = (?y, _) |- same_but_timers ?x ?y =>
      let Hs := fresh in
      pose proof (schedule_pv_retry_state d b x) as Hs; rewrite H in Hs; exact Hs
  | _ => idtac
  end.

(** Every finalizer leaves the counters as its head, [count_result], set
    them: the rest only arms timers and starts threads. *)
Lemma finalize_state mode env result s :
  same_but_timers (fst (count_result (label_of mode) result s))
                  (fst (finalize mode env result s)).
Proof.
  destruct mode; cbn [finalize label_of].
  - unfold _finalize_pv_smart.
    destruct (count_result "PV: Fehler" result s) as [s1 eff1]. cbn [fst].
    repeat break_if; cbn [fst];
      try apply same_but_timers_refl;
      try (repeat split; fail);
      finish_state.
  - unfold _finalize_pv_followup.
    destruct (count_result "PV followup: Fehler" result s) as [s1 eff1]. cbn [fst].
    repeat break_if; cbn [fst];
      try apply same_but_timers_refl;
      try (repeat split; fail);
      finish_state.
  - unfold _finalize_pv_single. apply same_but_timers_refl.
Qed.

(** C2. Applying a fetch result, in any of the three modes, counts one
    attempt whatever the outcome, and counts one query exactly when there
    is a result: a failed fetch leaves [pv_queries_today] unchanged. *)
Theorem budget_counts_successes_only :
  forall mode env result s,
    let s' := fst (finalize mode env result s) in
    pv_attempts_today s' = (pv_attempts_today s + 1)%Z /\
    pv_queries_today s'
    = (pv_queries_today s + (if is_result result then 1 else 0))%Z.
Proof.
  intros mode env result s s'.
  pose proof (finalize_state mode env result s) as Hs.
  pose proof (count_result_state (label_of mode) result s) as Hc.
  cbv zeta in Hc. unfold same_but_timers in Hs. fold s' in Hs.
  split; [transitivity (pv_attempts_today (fst (count_result (label_of mode) result s)))
         | transitivity (pv_queries_today (fst (count_result (label_of mode) result s)))];
    tauto.
Qed.

(** ** The failure backoff *)

Lemma pauses_app a b : pauses (a ++ b) = (pauses a + pauses b)%nat.
Proof. unfold pauses. now rewrite filter_app, length_app. Qed.

Lemma armed_app a b : armed (a ++ b) = armed a ++ armed b.
Proof. unfold armed. apply flat_map_app. Qed.

Lemma started_app a b : started (a ++ b) = started a ++ started b.
Proof. unfold started. apply flat_map_app. Qed.

Lemma cancel_quiet t : pauses (cancel t) = 0%nat /\ armed (cancel t) = [] /\ started (cancel t) = [].
Proof. destruct t; repeat split. Qed.

Lemma count_result_quiet label result s :
  let eff := snd (count_result label result s) in
  pauses eff = 0%nat /\ armed eff = [] /\ started eff = [].
Proof. unfold count_result. destruct result; repeat split. Qed.

Lemma schedule_next_day_pauses env s : pauses (snd (_schedule_next_day env s)) = 0%nat.
Proof.
  unfold _schedule_next_day, _schedule_pv_retry.
  destruct (fst (twilight_tomorrow env)); cbn [snd];
    rewrite !pauses_app; destruct (cancel_quiet (pv_window_timer s)) as (-> & _);
    reflexivity.
Qed.

Lemma get_current_pv_interval_pauses env s :
  pauses (snd (_get_current_pv_interval env s)) = 0%nat.
Proof.
  pose proof (get_current_pv_interval_silent env s) as H.
  destruct (snd (_get_current_pv_interval env s)) as [|e l]; [reflexivity|].
  unfold _get_current_pv_interval in *.
  assert (He : exists msg, e = Log WARNING msg) by (apply H; now left).
  assert (Hl : forall e', In e' l -> exists msg, e' = Log WARNING msg)
    by (intros e' He'; apply H; now right).
  clear H. destruct He as [msg ->]. unfold pauses. cbn [filter is_pause].
  induction l as [|e' l IH]; [reflexivity|].
  destruct (Hl e' (or_introl eq_refl)) as [msg' ->]. cbn [filter is_pause].
  apply IH. intros e'' He''. apply Hl. now right.
Qed.

Ltac name_effects :=
  repeat match goal with
    | H : _schedule_next_day ?e ?x = (_, ?l) |- _ =>
        let Hp := fresh "Hp" in
        pose proof (schedule_next_day_pauses e x) as Hp;
        rewrite H in Hp; cbn [snd] in Hp; clear H
    | H : _get_current_pv_interval ?e ?x = (_, ?l) |- _ =>
        let Hp := fresh "Hp" in
        pose proof (get_current_pv_interval_pauses e x) as Hp;
        rewrite H in Hp; cbn [snd] in Hp; clear H
    | H : _schedule_pv_retry _ _ _ = (_, _) |- _ =>
        unfold _schedule_pv_retry in H; injection H as <- <-
    end.

Ltac count_pauses :=
  rewrite ?pauses_app;
  repeat match goal with
    | |- context [pauses (cancel ?t)] =>
        destruct (cancel_quiet t) as (-> & _ & _)
    | H : pauses ?l = _ |- context [pauses ?l] => rewrite H
    end;
  try reflexivity.

Lemma finalize_pauses mode env result s :
  mode <> single ->
  pauses (snd (finalize mode env result s))
  = if negb (is_result result) && (5 <=? pv_consecutive_failures s + 1)%Z
    then 1%nat else 0%nat.
Proof.
  intros Hm.
  pose proof (count_result_state (label_of mode) result s) as (_ & _ & Hf & _).
  pose proof (count_result_quiet (label_of mode) result s) as (Hq & _ & _).
  destruct mode; [| |congruence]; cbn [finalize label_of] in *.
  - unfold _finalize_pv_smart.
    destruct (count_result "PV: Fehler" result s) as [s1 eff1]. cbn [fst snd] in Hf, Hq.
    rewrite Hf. destruct result as [r|]; cbn [is_result negb andb].
    + repeat break_if; cbn [snd]; name_effects; count_pauses;
        break_if; reflexivity.
    + destruct (5 <=? pv_consecutive_failures s + 1)%Z;
        repeat break_if; cbn [snd]; name_effects; count_pauses;
        try (break_if; reflexivity).
  - unfold _finalize_pv_followup.
    destruct (count_result "PV followup: Fehler" result s) as [s1 eff1].
    cbn [fst snd] in Hf, Hq.
    rewrite Hf. destruct result as [r|]; cbn [is_result negb andb].
    + repeat break_if; cbn [snd]; name_effects; count_pauses.
    + destruct (5 <=? pv_consecutive_failures s + 1)%Z;
        repeat break_if; cbn [snd]; name_effects; count_pauses.
Qed.

Lemma finalize_pause_replaces_interval mode env s :
  mode <> single ->
  (5 <= pv_consecutive_failures s + 1)%Z ->
  armed (snd (finalize mode env None s)) = [pause_timer mode] /\
  started (snd (finalize mode env None s)) = [].
Proof.
  intros Hm H5. apply Z.leb_le in H5.
  destruct mode; [| |congruence]; cbn [finalize pause_timer].
  - unfold _finalize_pv_smart, count_result, _schedule_pv_retry.
    cbn [is_result negb andb fst snd pv_consecutive_failures set_failures set_attempts].
    rewrite H5. cbn [snd]. rewrite !armed_app, !started_app.
    destruct (cancel_quiet (pv_window_timer
      (set_failures (pv_consecutive_failures s + 1) (set_attempts (pv_attempts_today s + 1) s))))
      as (_ & -> & ->).
    split; reflexivity.
  - unfold _finalize_pv_followup, count_result.
    cbn [is_result negb andb fst snd pv_consecutive_failures set_failures set_attempts].
    rewrite H5. cbn [snd]. rewrite !armed_app, !started_app.
    destruct (cancel_quiet (pv_followup_timer
      (set_failures (pv_consecutive_failures s + 1) (set_attempts (pv_attempts_today s + 1) s))))
      as (_ & -> & ->).
    split; reflexivity.
Qed.

Lemma finalize_failures mode env result s :
  pv_consecutive_failures (fst (finalize mode env result s))
  = (if is_result result then 0 else pv_consecutive_failures s + 1)%Z.
Proof.
  pose proof (finalize_state mode env result s) as Hs.
  pose proof (count_result_state (label_of mode) result s) as (_ & _ & Hf & _).
  unfold same_but_timers in Hs. rewrite <- Hf. tauto.
Qed.

Lemma run_pauses : forall ticks s,
  Forall polling_tick ticks ->
  List.map pauses (snd (run ticks s)) = expected_pauses (pv_consecutive_failures s) ticks.
Proof.
  induction ticks as [|[[mode env] result] rest IH]; intros s Hp; [reflexivity|].
  inversion Hp as [|? ? Hm Hrest]; subst. unfold polling_tick in Hm. cbn [fst] in Hm.
  cbn [run expected_pauses].
  pose proof (finalize_pauses env result s Hm) as Hps.
  pose proof (finalize_failures mode env result s) as Hfs.
  destruct (finalize mode env result s) as [s1 eff]. cbn [fst snd] in Hps, Hfs.
  specialize (IH s1 Hrest). destruct (run rest s1) as [s2 effs]. cbn [snd] in IH |- *.
  cbn [List.map]. rewrite Hps, IH, Hfs.
  destruct result; reflexivity.
Qed.

Lemma run_failures : forall ticks s,
  pv_consecutive_failures (fst (run ticks s))
  = List.fold_left (fun n (t : Tick) => if is_result (snd t) then 0 else n + 1)%Z
                   ticks (pv_consecutive_failures s).
Proof.
  induction ticks as [|[[mode env] result] rest IH]; intros s; [reflexivity|].
  cbn [run List.fold_left snd].
  pose proof (finalize_failures mode env result s) as Hfs.
  destruct (finalize mode env result s) as [s1 eff]. cbn [fst] in Hfs.
  specialize (IH s1). destruct (run rest s1) as [s2 effs]. cbn [fst] in IH |- *.
  now rewrite IH, Hfs.
Qed.

Lemma expected_pauses_failures : forall fails n rest,
  Forall failure_tick fails ->
  expected_pauses n (fails ++ rest)
  = List.map (fun k => if (5 <=? n + Z.of_nat k + 1)%Z then 1%nat else 0%nat)
             (List.seq 0 (List.length fails))
    ++ expected_pauses (n + Z.of_nat (List.length fails)) rest.
Proof.
  induction fails as [|[[mode env] result] fails IH]; intros n rest Hall.
  - cbn. now rewrite Z.add_0_r.
  - inversion Hall as [|? ? Hf Hrest]; subst.
    unfold failure_tick in Hf. cbn [snd] in Hf. subst result.
    cbn [app expected_pauses List.length List.seq List.map].
    rewrite (IH (n + 1)%Z rest Hrest), <- seq_shift, map_map.
    f_equal; [now rewrite Z.add_0_r|]. f_equal.
    + apply map_ext. intros k. now replace (n + Z.of_nat (S k) + 1)%Z
        with (n + 1 + Z.of_nat k + 1)%Z by lia.
    + f_equal. lia.
Qed.

Lemma success_tick (t : Tick) : ~ failure_tick t -> exists r, snd t = Some r.
Proof.
  unfold failure_tick. destruct (snd t) as [r|]; [eauto | congruence].
Qed.

(** C4. The failure backoff of the two polling finalizers.  A result
    resets [pv_consecutive_failures] to 0 and a failure increments it; a
    failure pauses exactly when it brings the counter to 5 or more, and the
    pause is then the only timer armed (15 minutes, in place of the phase
    interval) and no fetch is started.  Hence, from a counter of 0: five
    failures in a row pause once, at the fifth; fewer than five failures
    followed by a result pause never and leave the counter at 0; and after
    five failures and a result, the next failure does not pause. *)
Theorem failure_backoff_policy :
  (forall mode env result s,
      pv_consecutive_failures (fst (finalize mode env result s))
      = (if is_result result then 0 else pv_consecutive_failures s + 1)%Z) /\
  (forall mode env result s,
      mode <> single ->
      pauses (snd (finalize mode env result s))
      = if negb (is_result result) && (5 <=? pv_consecutive_failures s + 1)%Z
        then 1%nat else 0%nat) /\
  (forall mode env s,
      mode <> single ->
      (5 <= pv_consecutive_failures s + 1)%Z ->
      armed (snd (finalize mode env None s)) = [pause_timer mode] /\
      started (snd (finalize mode env None s)) = []) /\
  (forall ticks s,
      Forall polling_tick ticks -> Forall failure_tick ticks ->
      List.length ticks = 5%nat -> pv_consecutive_failures s = 0%Z ->
      List.map pauses (snd (run ticks s)) = [0; 0; 0; 0; 1]%nat) /\
  (forall fails ok s,
      Forall polling_tick (fails ++ [ok]) -> Forall failure_tick fails ->
      (List.length fails < 5)%nat -> ~ failure_tick ok ->
      pv_consecutive_failures s = 0%Z ->
      List.map pauses (snd (run (fails ++ [ok]) s))
      = List.repeat 0%nat (List.length fails + 1) /\
      pv_consecutive_failures (fst (run (fails ++ [ok]) s)) = 0%Z) /\
  (forall fails ok again s,
      Forall polling_tick (fails ++ [ok; again]) -> Forall failure_tick fails ->
      List.length fails = 5%nat -> ~ failure_tick ok -> failure_tick again ->
      pv_consecutive_failures s = 0%Z ->
      List.map pauses (snd (run (fails ++ [ok; again]) s))
      = [0; 0; 0; 0; 1; 0; 0]%nat).
Proof.
  split; [exact finalize_failures|].
  split; [intros; now apply finalize_pauses|].
  split; [intros; now apply finalize_pause_replaces_interval|].
  split; [|split].
  - intros ticks s Hp Hf Hlen H0.
    rewrite (run_pauses s Hp), H0, <- (app_nil_r ticks).
    rewrite (expected_pauses_failures 0 [] Hf), Hlen. reflexivity.
  - intros fails [[mode env] result] s Hp Hf Hlen Hok H0.
    destruct (success_tick Hok) as [r Hr]. cbn [snd] in Hr. subst result. split.
    + rewrite (run_pauses s Hp), H0.
      rewrite (@expected_pauses_failures fails 0 _ Hf).
      cbn [expected_pauses].
      destruct (List.length fails) as [|[|[|[|[|n]]]]]; try lia; reflexivity.
    + rewrite run_failures, fold_left_app. reflexivity.
  - intros fails [[mode env] result] [[mode' env'] result'] s Hp Hf Hlen Hok Hagain H0.
    destruct (success_tick Hok) as [r Hr]. cbn [snd] in Hr. subst result.
    unfold failure_tick in Hagain. cbn [snd] in Hagain. subst result'.
    rewrite (run_pauses s Hp), H0.
    rewrite (@expected_pauses_failures fails 0 _ Hf).
    rewrite Hlen. reflexivity.
Qed.

(** Five failed smart fetches after start-up, then a result and one more
    failure. *)
Lemma failure_backoff_policy_witness :
  let env := mkEnv 0 0 (None, None) (None, None) (fun _ => (None, None)) in
  let failed : Tick := (smart, env, None) in
  let fetched : Tick := (smart, env, Some (mkPvResult (Some 1200) None None None)) in
  List.map pauses
    (snd (run ([failed; failed; failed; failed; failed] ++ [fetched; failed]) dashboard0))
  = [0; 0; 0; 0; 1; 0; 0]%nat.
Proof.
  cbv zeta.
  apply (proj2 (proj2 (proj2 (proj2 (proj2 failure_backoff_policy))))).
  - repeat constructor; discriminate.
  - repeat constructor.
  - reflexivity.
  - discriminate.
  - reflexivity.
  - reflexivity.
Defined.

(** ** The window scheduler *)

Lemma plan_and_start_state env w s :
  let s' := fst (plan_and_start env w s) in
  holds_plan w s' /\
  pv_max_queries s' = pv_max_queries s /\
  pv_queries_today s' = pv_queries_today s /\
  pv_query_date s' = pv_query_date s.
Proof.
  unfold plan_and_start.
  set (s2 := set_intervals _ _ _).
  assert (H2 : holds_plan w s2 /\ pv_max_queries s2 = pv_max_queries s /\
               pv_queries_today s2 = pv_queries_today s /\
               pv_query_date s2 = pv_query_date s)
    by (unfold holds_plan; repeat split).
  assert (Hs : forall s3, same_but_timers s2 s3 ->
                          holds_plan w s3 /\ pv_max_queries s3 = pv_max_queries s /\
                          pv_queries_today s3 = pv_queries_today s /\
                          pv_query_date s3 = pv_query_date s).
  { intros s3 H3. unfold same_but_timers in H3. unfold holds_plan in *.
    decompose [and] H3. decompose [and] H2.
    repeat split; congruence. }
  repeat break_if; cbn [fst]; try exact H2; apply Hs; finish_state.
Qed.

Lemma with_sun_times_state env k dawn dusk s :
  fst (with_sun_times env k dawn dusk s)
  = fst (plan_and_start env (sun_times (met_no env k) dawn dusk) s).
Proof.
  unfold with_sun_times, sun_times.
  destruct (met_no env k) as [[sunrise|] [sunset|]]; try reflexivity;
    destruct (plan_and_start env _ s); reflexivity.
Qed.

Lemma schedule_pv_window_state env s :
  fst (schedule_pv_window env s)
  = match twilight_window env with
    | Some w => fst (plan_and_start env w (fst (reset_on_new_day env s)))
    | None => fst (_schedule_pv_retry (30 * 60 * 1000) false (fst (reset_on_new_day env s)))
    end.
Proof.
  unfold schedule_pv_window, twilight_window.
  destruct (reset_on_new_day env s) as [s1 eff_reset]. cbn [fst].
  destruct (twilight_today env) as [[dawn|] [dusk|]].
  - rewrite <- with_sun_times_state. destruct (with_sun_times env 0 dawn dusk s1).
    reflexivity.
  - destruct (met_no env 0) as [[sunrise|] [sunset|]]; try reflexivity.
    rewrite <- with_sun_times_state. destruct (with_sun_times env 1 _ _ s1). reflexivity.
  - destruct (met_no env 0) as [[sunrise|] [sunset|]]; try reflexivity.
    rewrite <- with_sun_times_state. destruct (with_sun_times env 1 _ _ s1). reflexivity.
  - destruct (met_no env 0) as [[sunrise|] [sunset|]]; try reflexivity.
    rewrite <- with_sun_times_state. destruct (with_sun_times env 1 _ _ s1). reflexivity.
Qed.

Lemma schedule_pv_window_no_source env s :
  twilight_window env = None ->
  snd (schedule_pv_window env s)
  = snd (reset_on_new_day env s)
    ++ [Log INFO "Skyfield-Daemmerung nicht verfuegbar, verwende api.met.no Fallback";
        Log WARNING "Weder Skyfield noch api.met.no verfuegbar. Erneuter Versuch in 30 Minuten."]
    ++ cancel (pv_window_timer (fst (reset_on_new_day env s)))
    ++ [After (30 * 60 * 1000) cb_schedule_pv_window].
Proof.
  unfold schedule_pv_window, twilight_window.
  destruct (reset_on_new_day env s) as [s1 eff_reset]. cbn [fst snd].
  destruct (twilight_today env) as [[dawn|] [dusk|]]; try discriminate;
    destruct (met_no env 0) as [[sunrise|] [sunset|]]; try discriminate;
    intros _; reflexivity.
Qed.

Lemma reset_on_new_day_state env s :
  pv_query_date s <> Some (today env) ->
  fst (reset_on_new_day env s) = set_counter 0 (Some (today env)) s.
Proof.
  intros Hd. unfold reset_on_new_day.
  destruct (pv_query_date s) as [d|]; [|reflexivity].
  destruct (Z.eqb_spec d (today env)); [congruence | reflexivity].
Qed.

Lemma reset_on_new_day_quiet env s :
  let eff := snd (reset_on_new_day env s) in
  armed eff = [] /\ started eff = [] /\
  same_but_timers (set_counter (pv_queries_today (fst (reset_on_new_day env s)))
                               (pv_query_date (fst (reset_on_new_day env s))) s)
                  (fst (reset_on_new_day env s)) /\
  pv_window_timer (fst (reset_on_new_day env s)) = pv_window_timer s.
Proof.
  unfold reset_on_new_day.
  destruct (match pv_query_date s with Some d => (d =? today env)%Z | None => false end);
    repeat split.
Qed.

(** ** The interval of the current phase *)

Lemma truthy_positive (q : Q) : 0 < q -> truthy (Some q) = true.
Proof.
  intros H. unfold truthy. apply negb_true_iff, not_true_iff_false.
  intros He. apply Qeq_bool_iff in He. lra.
Qed.

Lemma current_interval_of_plan env w s ph :
  holds_plan w s -> valid_window w ->
  (pv_queries_today s < pv_max_queries s)%Z ->
  in_phase ph w (now env) ->
  _get_current_pv_interval env s
  = ((phase_interval (pv_budget (pv_max_queries s) w) ph, true), []).
Proof.
  intros (Hd & Hsr & Hss & Hk & Hr & Hc) (H1 & H2 & H3) Hb Hph.
  unfold _get_current_pv_interval.
  destruct (Z.leb_spec (pv_max_queries s) (pv_queries_today s)); [lia|].
  rewrite Hd, Hsr, Hss, Hk, Hr, Hc.
  destruct (pv_budget_positive (pv_max_queries s) w) as [Hrp Hcp].
  rewrite (truthy_positive Hrp), (truthy_positive Hcp). cbn [negb orb].
  destruct ph; unfold in_phase in Hph; cbn [phase_interval];
    repeat match goal with
      | |- context [(?a <? ?b)%Z] => destruct (Z.ltb_spec a b); try lia
      | |- context [(?a <=? ?b)%Z] => destruct (Z.leb_spec a b); try lia
      end; cbn [andb orb]; reflexivity.
Qed.

Lemma phase_interval_closed_form max_queries w ph :
  phase_interval (pv_budget max_queries w) ph = used_phase_interval max_queries w ph.
Proof.
  unfold used_phase_interval, phase_queries, pv_budget.
  destruct (leb (weighted_total w) 0).
  - destruct ph; reflexivity.
  - cbv zeta. cbn [queries interval_ramp interval_core].
    destruct ph; cbn [phase_interval source_phase phase_minutes default_interval
                      interval_ramp interval_core]; reflexivity.
Qed.

(** C5, as stated, fails in the evening ramp.  Dawn at 00:00, sunrise at
    00:30, sunset at 10:30, dusk at 11:30 and a budget of 280: the evening
    ramp has 60 minutes and 5 queries of its own, so 720 seconds, but at
    11:00 the scheduler polls every 900 seconds, the interval of the
    30-minute morning ramp with its 2 queries. *)
Lemma dusk_ramp_polls_at_morning_interval :
  let w := mkWindow 0 1800000000 37800000000 41400000000 in
  let env := mkEnv 0 39600000000 (Some 0%Z, Some 41400000000%Z) (None, None)
                   (fun _ => (Some 1800000000%Z, Some 37800000000%Z)) in
  let s := fst (schedule_pv_window env dashboard0) in
  twilight_window env = Some w /\
  in_phase dusk_ramp w (now env) /\
  queries (pv_budget 280 w) = Some (2, 271, 5)%Z /\
  fst (fst (_get_current_pv_interval env s)) == 900 /\
  spec_phase_interval 280 w dusk_ramp == 720 /\
  ~ fst (fst (_get_current_pv_interval env s)) == spec_phase_interval 280 w dusk_ramp.
Proof.
  cbv zeta. repeat split; try (vm_compute; congruence).
Qed.

(** C5, amended.  Once [schedule_pv_window] has planned a valid window,
    and while budget remains, the interval used in the morning ramp and in
    the core is that phase's own minutes over its own query count, times
    60; the evening ramp is polled with the interval of the morning ramp.
    The defaults (600 seconds in a ramp, 120 in the core) replace it when
    the weighted total, the query count or the minutes it is computed from
    are not positive. *)
Theorem current_interval_by_phase :
  forall env0 s0 w env ph,
    twilight_window env0 = Some w ->
    valid_window w ->
    let s := fst (schedule_pv_window env0 s0) in
    (pv_queries_today s < pv_max_queries s)%Z ->
    in_phase ph w (now env) ->
    fst (_get_current_pv_interval env s)
    = (used_phase_interval (pv_max_queries s0) w ph, true).
Proof.
  intros env0 s0 w env ph Hw Hv s Hb Hph.
  assert (Hs : holds_plan w s /\ pv_max_queries s = pv_max_queries s0).
  { subst s. rewrite schedule_pv_window_state, Hw.
    destruct (plan_and_start_state env0 w (fst (reset_on_new_day env0 s0)))
      as (Hp & Hm & _).
    split; [exact Hp|]. rewrite Hm.
    destruct (reset_on_new_day_quiet env0 s0) as (_ & _ & Hr & _).
    unfold same_but_timers in Hr. cbn in Hr. tauto. }
  destruct Hs as [Hp Hm].
  rewrite (@current_interval_of_plan env w s ph Hp Hv Hb Hph). cbn [fst].
  now rewrite phase_interval_closed_form, Hm.
Qed.

(** The window of the counterexample, read at 11:00 in the evening ramp. *)
Lemma current_interval_by_phase_witness :
  let w := mkWindow 0 1800000000 37800000000 41400000000 in
  let env := mkEnv 0 39600000000 (Some 0%Z, Some 41400000000%Z) (None, None)
                   (fun _ => (Some 1800000000%Z, Some 37800000000%Z)) in
  fst (_get_current_pv_interval env (fst (schedule_pv_window env dashboard0)))
  = (used_phase_interval 280 w dusk_ramp, true).
Proof.
  cbv zeta.
  apply (@current_interval_by_phase
           (mkEnv 0 39600000000 (Some 0%Z, Some 41400000000%Z) (None, None)
                  (fun _ => (Some 1800000000%Z, Some 37800000000%Z)))
           dashboard0 (mkWindow 0 1800000000 37800000000 41400000000)).
  - reflexivity.
  - unfold valid_window. cbn. lia.
  - vm_compute. reflexivity.
  - unfold in_phase. cbn. lia.
Defined.

(** ** Day rollover *)

(** C3, as stated, fails when no twilight source answers: at start-up
    (no query day stored yet) the counter is reset but no interval is
    computed. *)
Lemma rollover_without_source_keeps_intervals :
  let env := mkEnv 20000 0 (None, None) (None, None) (fun _ => (None, None)) in
  let s' := fst (schedule_pv_window env dashboard0) in
  pv_query_date dashboard0 <> Some (today env) /\
  pv_queries_today s' = 0%Z /\
  pv_interval_ramp s' = None /\
  ~ rollover_recomputes env dashboard0.
Proof.
  cbv zeta. repeat split; try discriminate.
  intros H. destruct H as (_ & w & Hp); [discriminate|].
  unfold holds_plan in Hp. decompose [and] Hp. discriminate.
Qed.

(** C3, amended.  Whenever [schedule_pv_window] finds a stored query day
    other than today, whatever the rest of the state, it resets
    [pv_queries_today] to 0 and stores today; when a twilight source
    answers it stores the window of the day and the intervals planned for
    it; when none answers it leaves the intervals as they were and arms a
    retry of itself in 30 minutes. *)
Theorem day_rollover_resets_counter :
  forall env s,
    pv_query_date s <> Some (today env) ->
    let s' := fst (schedule_pv_window env s) in
    pv_queries_today s' = 0%Z /\
    pv_query_date s' = Some (today env) /\
    match twilight_window env with
    | Some w => holds_plan w s'
    | None =>
        pv_interval_ramp s' = pv_interval_ramp s /\
        pv_interval_core s' = pv_interval_core s /\
        armed (snd (schedule_pv_window env s)) = [((30 * 60 * 1000)%Z, cb_schedule_pv_window)]
    end.
Proof.
  intros env s Hd s'. subst s'. rewrite schedule_pv_window_state.
  pose proof (@reset_on_new_day_state env s Hd) as Hr.
  destruct (twilight_window env) as [w|] eqn:Hw.
  - destruct (plan_and_start_state env w (fst (reset_on_new_day env s)))
      as (Hp & _ & Hq & Hday).
    rewrite Hr in Hp, Hq, Hday. rewrite Hr, Hq, Hday.
    split; [reflexivity|]. split; [reflexivity | exact Hp].
  - rewrite Hr. split; [reflexivity|]. split; [reflexivity|].
    split; [reflexivity|]. split; [reflexivity|].
    rewrite (@schedule_pv_window_no_source env s Hw), !armed_app.
    destruct (reset_on_new_day_quiet env s) as (-> & _).
    destruct (cancel_quiet (pv_window_timer (fst (reset_on_new_day env s))))
      as (_ & -> & _).
    reflexivity.
Qed.

(** A new day found in the middle of a failure streak, with yesterday's
    plan still stored and both sources answering. *)
Lemma day_rollover_resets_counter_witness :
  let env := mkEnv 20001 39600000000 (Some 0%Z, Some 41400000000%Z) (None, None)
                   (fun _ => (Some 1800000000%Z, Some 37800000000%Z)) in
  let s := mkDashboard (Some 5%Z) (Some 6%Z) (Some 7%Z) (Some 8%Z) 280 280
                       (Some 20000%Z) (Some 600) (Some 120) (Some 35) 290 3
                       None None None in
  let s' := fst (schedule_pv_window env s) in
  pv_queries_today s' = 0%Z /\
  pv_query_date s' = Some 20001%Z /\
  holds_plan (mkWindow 0 1800000000 37800000000 41400000000) s'.
Proof.
  cbv zeta.
  apply (@day_rollover_resets_counter
           (mkEnv 20001 39600000000 (Some 0%Z, Some 41400000000%Z) (None, None)
                  (fun _ => (Some 1800000000%Z, Some 37800000000%Z)))
           (mkDashboard (Some 5%Z) (Some 6%Z) (Some 7%Z) (Some 8%Z) 280 280
                        (Some 20000%Z) (Some 600) (Some 120) (Some 35) 290 3
                        None None None)).
  cbn. discriminate.
Defined.

(** ** No twilight source *)

(** C6, as stated, fails: with neither source the scheduler stores no
    window at all and starts no polling. *)
Lemma no_source_stores_no_window :
  let env := mkEnv 20000 43200000000 (None, None) (None, None)
                   (fun _ => (None, None)) in
  let r := schedule_pv_window env dashboard0 in
  twilight_window env = None /\
  pv_civil_dawn (fst r) = None /\
  started (snd r) = [] /\
  ~ falls_back_to_fixed_window env dashboard0.
Proof.
  cbv zeta. repeat split.
  intros H. destruct H as ((dawn & _ & _ & _ & Hd & _) & _); [reflexivity|].
  discriminate.
Qed.

(** C6, amended.  When neither the Skyfield twilight nor the provider's
    sunrise and sunset are available, [schedule_pv_window] logs a warning,
    keeps the stored window and intervals as they were, starts no fetch,
    and arms exactly one timer: a retry of itself in 30 minutes. *)
Theorem no_source_retries_in_30_minutes :
  forall env s,
    twilight_window env = None ->
    let r := schedule_pv_window env s in
    warns (snd r) /\
    armed (snd r) = [((30 * 60 * 1000)%Z, cb_schedule_pv_window)] /\
    started (snd r) = [] /\
    pv_window_timer (fst r) = Some ((30 * 60 * 1000)%Z, cb_schedule_pv_window) /\
    pv_civil_dawn (fst r) = pv_civil_dawn s /\
    pv_sunrise (fst r) = pv_sunrise s /\
    pv_sunset (fst r) = pv_sunset s /\
    pv_civil_dusk (fst r) = pv_civil_dusk s /\
    pv_interval_ramp (fst r) = pv_interval_ramp s /\
    pv_interval_core (fst r) = pv_interval_core s.
Proof.
  intros env s Hw r. subst r.
  rewrite schedule_pv_window_state, (@schedule_pv_window_no_source env s Hw), Hw.
  destruct (reset_on_new_day_quiet env s) as (Ha & Hst & Hsame & _).
  cbv zeta in Ha, Hst. unfold same_but_timers in Hsame. cbn in Hsame.
  split.
  { eexists. apply in_or_app. right. right. left. reflexivity. }
  rewrite !armed_app, !started_app, Ha, Hst.
  destruct (cancel_quiet (pv_window_timer (fst (reset_on_new_day env s))))
    as (_ & -> & ->).
  cbn. decompose [and] Hsame. repeat split; auto.
Qed.

(** Start-up at noon with neither source. *)
Lemma no_source_retries_in_30_minutes_witness :
  let env := mkEnv 20000 43200000000 (None, None) (None, None)
                   (fun _ => (None, None)) in
  let r := schedule_pv_window env dashboard0 in
  warns (snd r) /\
  armed (snd r) = [((30 * 60 * 1000)%Z, cb_schedule_pv_window)] /\
  started (snd r) = [] /\
  pv_window_timer (fst r) = Some ((30 * 60 * 1000)%Z, cb_schedule_pv_window) /\
  pv_civil_dawn (fst r) = None /\
  pv_sunrise (fst r) = None /\
  pv_sunset (fst r) = None /\
  pv_civil_dusk (fst r) = None /\
  pv_interval_ramp (fst r) = None /\
  pv_interval_core (fst r) = None.
Proof.
  cbv zeta.
  apply (@no_source_retries_in_30_minutes
           (mkEnv 20000 43200000000 (None, None) (None, None) (fun _ => (None, None)))
           dashboard0).
  reflexivity.
Defined.

End PVFacts.

(** * Further properties of the Skyfield helpers and their callers *)

Module TwilightFacts.
Import Py Astro Twilight PyFacts AstroFacts.

Lemma find_sun_crossing_time_keeps_ready d obs target s e rising g g1 :
  init_skyfield d g = (true, g1) -> ready obs g1 ->
  ready obs (snd (find_sun_crossing_time d target s e rising g)).
Proof.
  intros Hi Hr. unfold find_sun_crossing_time. rewrite Hi. simpl negb. cbv iota.
  destruct (@bisect_ready 30 d obs target rising s e g1 Hr) as (g2 & Hb & Hr2).
  rewrite Hb.
  destruct (brackets 30 (elevation_of obs) target rising (s, e)) as [s30 e30].
  unfold tt_jd. destruct Hr2 as (Ha & Hts & Ho). rewrite Hts. cbn [snd].
  repeat split; assumption.
Qed.

(** X1. Initialisation is sticky on success and retried after a failure:
    once [init_skyfield] has answered [True], every later call answers
    [True] without touching the globals or the log, whatever has become of
    the file; and after an answer of [False], a call that finds a loadable
    ephemeris answers [True] and binds its observer. *)
Theorem init_skyfield_sticky_and_retried :
  forall d g,
    (fst (init_skyfield d g) = true ->
     forall d', init_skyfield d' (snd (init_skyfield d g))
                = (true, snd (init_skyfield d g))) /\
    (fst (init_skyfield d g) = false ->
     forall obs,
       fst (init_skyfield (EphLoaded obs) (snd (init_skyfield d g))) = true /\
       OBSERVER (snd (init_skyfield (EphLoaded obs) (snd (init_skyfield d g))))
       = Some obs).
Proof.
  intros d g. split.
  - intros Hok d'.
    assert (Hav : SKYFIELD_AVAILABLE (snd (init_skyfield d g)) = Some true).
    { revert Hok. unfold init_skyfield.
      destruct (SKYFIELD_AVAILABLE g) as [[|]|] eqn:Hav; cbn [fst snd]; auto;
        destruct d; cbn [fst snd]; auto; discriminate. }
    unfold init_skyfield at 1. now rewrite Hav.
  - intros Hko obs.
    assert (Hav : SKYFIELD_AVAILABLE (snd (init_skyfield d g)) = Some false).
    { revert Hko. unfold init_skyfield.
      destruct (SKYFIELD_AVAILABLE g) as [[|]|] eqn:Hav; cbn [fst snd]; auto;
        destruct d; cbn [fst snd]; auto; discriminate. }
    unfold init_skyfield at 1 3. rewrite Hav. split; reflexivity.
Qed.

Lemma init_skyfield_sticky_and_retried_witness :
  fst (init_skyfield (EphLoaded (fun t => Some t))
         (snd (init_skyfield EphMissing globals0))) = true /\
  OBSERVER (snd (init_skyfield (EphLoaded (fun t => Some t))
                   (snd (init_skyfield EphMissing globals0))))
  = Some (fun t => Some t).
Proof.
  apply (proj2 (init_skyfield_sticky_and_retried EphMissing globals0)). reflexivity.
Defined.

(** X2. The crossing search can be repeated: on a loaded ephemeris a
    second search with the same target, bracket and direction, run in the
    state the first one left (whatever the file has become), returns the
    same instant. *)
Theorem find_sun_crossing_time_repeatable :
  forall d d' g g1 target (start_t end_t : Time) rising,
    consistent g ->
    init_skyfield d g = (true, g1) ->
    fst (find_sun_crossing_time d' target start_t end_t rising
           (snd (find_sun_crossing_time d target start_t end_t rising g)))
    = fst (find_sun_crossing_time d target start_t end_t rising g).
Proof.
  intros d d' g g1 target start_t end_t rising Hc Hi.
  destruct (@init_skyfield_ready d g g1 Hc Hi) as (obs & Hr).
  pose proof (@find_sun_crossing_time_keeps_ready d obs target start_t end_t rising g g1 Hi Hr)
    as Hr2.
  rewrite (@find_sun_crossing_time_ready d obs target start_t end_t rising g g1 Hi Hr).
  apply (@find_sun_crossing_time_ready d' obs target start_t end_t rising _ _
           (init_skyfield_when_ready d' Hr2) Hr2).
Qed.

Lemma find_sun_crossing_time_repeatable_witness :
  fst (find_sun_crossing_time EphMissing (-6) 0 (1 # 2) true
         (snd (find_sun_crossing_time (EphLoaded (fun t => Some t)) (-6) 0 (1 # 2) true
                 globals0)))
  = fst (find_sun_crossing_time (EphLoaded (fun t => Some t)) (-6) 0 (1 # 2) true globals0).
Proof.
  apply (@find_sun_crossing_time_repeatable
           (EphLoaded (fun t => Some t)) EphMissing globals0
           (logging INFO msg_init_ok (mkGlobals true (Some (fun t => Some t)) (Some true) []))).
  - exact consistent_globals0.
  - reflexivity.
Defined.

(** ** Civil twilight *)

Lemma crossing_outcome d obs target (s e : Time) rising g :
  ready obs g -> s <= e ->
  exists t g2,
    find_sun_crossing_time d target s e rising g = (Return (Some t), g2) /\
    s <= t <= e /\ ready obs g2.
Proof.
  intros Hr Hle.
  pose proof (init_skyfield_when_ready d Hr) as Hi.
  pose proof (@find_sun_crossing_time_ready d obs target s e rising g g Hi Hr) as Hf.
  pose proof (@find_sun_crossing_time_keeps_ready d obs target s e rising g g Hi Hr) as Hk.
  pose proof (@brackets_shrink 30 (elevation_of obs) target rising s e Hle) as Hs.
  cbv zeta in Hf, Hs.
  destruct (brackets 30 (elevation_of obs) target rising (s, e)) as [s30 e30].
  cbn [fst snd] in Hf, Hs.
  destruct (find_sun_crossing_time d target s e rising g) as [o g2].
  cbn [fst snd] in Hf, Hk. subst o.
  exists ((s30 + e30) / 2), g2. split; [reflexivity|]. split; [|exact Hk].
  pose proof (half (s30 + e30)). split; lra.
Qed.

(** X3. [get_civil_twilight_skyfield] answers with both instants or with
    neither, in every state and whatever the file: its callers may test
    either one. *)
Theorem civil_twilight_both_or_neither :
  forall d at_time to_local g,
    let r := fst (get_civil_twilight_skyfield d at_time to_local g) in
    r = (None, None) \/ exists dawn dusk, r = (Some dawn, Some dusk).
Proof.
  intros d at_time to_local g r. subst r. unfold get_civil_twilight_skyfield.
  repeat match goal with
    | |- context [match ?x with _ => _ end] => destruct x; cbn [negb fst]
    end; first [now left | right; eauto].
Qed.

Lemma civil_twilight_found :
  forall d (at_time : Z -> Z -> Z -> Time) (to_local : Time -> PV.DateTime) g g1,
    consistent g ->
    init_skyfield d g = (true, g1) ->
    at_time 0%Z 0%Z 0%Z <= at_time 12%Z 0%Z 0%Z ->
    at_time 12%Z 0%Z 0%Z <= at_time 23%Z 59%Z 59%Z ->
    exists dawn_t dusk_t : Time,
      fst (get_civil_twilight_skyfield d at_time to_local g)
      = (Some (to_local dawn_t), Some (to_local dusk_t)) /\
      at_time 0%Z 0%Z 0%Z <= dawn_t <= at_time 12%Z 0%Z 0%Z /\
      at_time 12%Z 0%Z 0%Z <= dusk_t <= at_time 23%Z 59%Z 59%Z.
Proof.
  intros d at_time to_local g g1 Hc Hi H1 H2.
  destruct (@init_skyfield_ready d g g1 Hc Hi) as (obs & Hr).
  unfold get_civil_twilight_skyfield. rewrite Hi. cbn [negb].
  unfold tt_jd at 1 2 3. destruct Hr as (Ha & Hts & Ho). rewrite Hts.
  assert (Hr : ready obs g1) by (repeat split; assumption).
  destruct (@crossing_outcome d obs CIVIL_TWILIGHT_ANGLE _ _ true g1 Hr H1)
    as (dawn_t & g2 & -> & Hdawn & Hr2).
  destruct (@crossing_outcome d obs CIVIL_TWILIGHT_ANGLE _ _ false g2 Hr2 H2)
    as (dusk_t & g3 & -> & Hdusk & Hr3).
  exists dawn_t, dusk_t. cbn [fst]. auto.
Qed.

(** X4. With a loaded ephemeris, and local midnight, noon and 23:59:59 of
    the date in this order on the time scale, [get_civil_twilight_skyfield]
    answers with both instants: the dawn found between midnight and noon
    and the dusk found between noon and 23:59:59, each converted to local
    time.  The dawn instant is therefore never after the dusk instant. *)
Theorem civil_twilight_brackets :
  forall d (at_time : Z -> Z -> Z -> Time) (to_local : Time -> PV.DateTime) g g1,
    consistent g ->
    init_skyfield d g = (true, g1) ->
    at_time 0%Z 0%Z 0%Z <= at_time 12%Z 0%Z 0%Z ->
    at_time 12%Z 0%Z 0%Z <= at_time 23%Z 59%Z 59%Z ->
    exists dawn_t dusk_t : Time,
      fst (get_civil_twilight_skyfield d at_time to_local g)
      = (Some (to_local dawn_t), Some (to_local dusk_t)) /\
      at_time 0%Z 0%Z 0%Z <= dawn_t <= at_time 12%Z 0%Z 0%Z /\
      at_time 12%Z 0%Z 0%Z <= dusk_t <= at_time 23%Z 59%Z 59%Z.
Proof.
  intros d at_time to_local g g1 Hc Hi H1 H2.
  exact (@civil_twilight_found d at_time to_local g g1 Hc Hi H1 H2).
Qed.

Lemma civil_twilight_brackets_witness :
  exists dawn_t dusk_t : Time,
    fst (get_civil_twilight_skyfield
           (EphLoaded (fun t => Some t))
           (fun h m s => inject_Z (h * 3600 + m * 60 + s))
           (fun t => Py.int (t * 1000000)) globals0)
    = (Some (Py.int (dawn_t * 1000000)), Some (Py.int (dusk_t * 1000000))) /\
    inject_Z (0 * 3600 + 0 * 60 + 0) <= dawn_t <= inject_Z (12 * 3600 + 0 * 60 + 0) /\
    inject_Z (12 * 3600 + 0 * 60 + 0) <= dusk_t <= inject_Z (23 * 3600 + 59 * 60 + 59).
Proof.
  apply (@civil_twilight_brackets
           (EphLoaded (fun t => Some t))
           (fun h m s => inject_Z (h * 3600 + m * 60 + s))
           (fun t => Py.int (t * 1000000)) globals0
           (logging INFO msg_init_ok (mkGlobals true (Some (fun t => Some t)) (Some true) []))).
  - exact consistent_globals0.
  - reflexivity.
  - discriminate.
  - discriminate.
Defined.

(** ** The hourly maximum of the sun's elevation *)

Lemma max_sun_fold_ready d obs from_datetime : forall hours seen mx g,
  ready obs g ->
  (forall h, In h seen -> elevation_of obs (from_datetime h 0%Z) <= mx) ->
  (mx = 0 \/ exists h, In h seen /\ mx = elevation_of obs (from_datetime h 0%Z)) ->
  exists mx' g',
    List.fold_left (max_sun_sample d from_datetime) hours (Return mx, g) = (Return mx', g') /\
    (forall h, In h (seen ++ hours) -> elevation_of obs (from_datetime h 0%Z) <= mx') /\
    (mx' = 0 \/
     exists h, In h (seen ++ hours) /\ mx' = elevation_of obs (from_datetime h 0%Z)).
Proof.
  induction hours as [|hour hours IH]; intros seen mx g Hr Hle Hcase.
  - exists mx, g. rewrite app_nil_r. auto.
  - cbn [List.fold_left]. unfold max_sun_sample at 2. unfold tt_jd.
    destruct (@get_sun_elevation_ready d obs (from_datetime hour 0%Z) g Hr) as [Hv Hr1].
    destruct Hr as (_ & Hts & _). rewrite Hts.
    destruct (get_sun_elevation_skyfield d (from_datetime hour 0%Z) g) as [elev g1].
    cbn [fst snd] in Hv, Hr1.
    assert (Hstep : forall mx1,
               (forall h, In h (seen ++ [hour]) ->
                          elevation_of obs (from_datetime h 0%Z) <= mx1) ->
               (mx1 = 0 \/ exists h, In h (seen ++ [hour]) /\
                                     mx1 = elevation_of obs (from_datetime h 0%Z)) ->
               exists mx' g',
                 List.fold_left (max_sun_sample d from_datetime) hours (Return mx1, g1)
                 = (Return mx', g') /\
                 (forall h, In h (seen ++ hour :: hours) ->
                            elevation_of obs (from_datetime h 0%Z) <= mx') /\
                 (mx' = 0 \/
                  exists h, In h (seen ++ hour :: hours) /\
                            mx' = elevation_of obs (from_datetime h 0%Z))).
    { intros mx1 H1 H2.
      destruct (IH (seen ++ [hour]) mx1 g1 Hr1 H1 H2) as (mx' & g' & Hf & Hb & Hc).
      rewrite <- app_assoc in Hb, Hc. exists mx', g'. auto. }
    destruct (ltb mx elev) eqn:Hcmp.
    + apply ltb_lt in Hcmp. apply Hstep.
      * intros h Hh. apply in_app_or in Hh. destruct Hh as [Hh | [<- | []]].
        -- specialize (Hle h Hh). lra.
        -- rewrite Hv. apply Qle_refl.
      * right. exists hour. split; [apply in_or_app; right; now left | exact Hv].
    + apply ltb_ge in Hcmp. apply Hstep.
      * intros h Hh. apply in_app_or in Hh. destruct Hh as [Hh | [<- | []]].
        -- exact (Hle h Hh).
        -- rewrite <- Hv. exact Hcmp.
      * destruct Hcase as [-> | (h & Hh & ->)]; [now left|].
        right. exists h. split; [apply in_or_app; now left | reflexivity].
Qed.

(** X5. [_calculate_max_sun_elevation] returns at least 10 degrees in
    every state, loaded or not.  With a loaded ephemeris the value bounds
    the elevation at every full hour from 06:00 to 18:00 and is 10 degrees
    or one of these thirteen samples. *)
Theorem max_sun_elevation_floor :
  forall d from_datetime g,
    10 <= fst (_calculate_max_sun_elevation d from_datetime g) /\
    (forall g1 obs,
        consistent g ->
        init_skyfield d g = (true, g1) ->
        OBSERVER g1 = Some obs ->
        let v := fst (_calculate_max_sun_elevation d from_datetime g) in
        (forall h, (6 <= h <= 18)%Z -> elevation_of obs (from_datetime h 0%Z) <= v) /\
        (v = 10 \/
         exists h, (6 <= h <= 18)%Z /\ v = elevation_of obs (from_datetime h 0%Z))).
Proof.
  intros d from_datetime g. split.
  - unfold _calculate_max_sun_elevation.
    destruct (init_skyfield d g) as [ok g1].
    destruct (List.fold_left _ _ _) as [[mx|exn] g2]; cbn [fst].
    + destruct (max_cases mx 10) as [[-> _] | [-> H]]; lra.
    + discriminate.
  - intros g1 obs Hc Hi Hobs v.
    destruct (@init_skyfield_ready d g g1 Hc Hi) as (obs' & Hr).
    assert (obs' = obs) as -> by (destruct Hr as (_ & _ & Ho); congruence).
    subst v. unfold _calculate_max_sun_elevation. rewrite Hi.
    destruct (@max_sun_fold_ready d obs from_datetime (range 6 19 1) [] 0 g1 Hr)
      as (mx & g2 & Hf & Hb & Hcase).
    { intros h []. }
    { now left. }
    destruct (List.fold_left _ _ _) as [o g2'] eqn:Hfold.
    injection Hf as -> ->. cbn [fst app] in *.
    assert (Hrange : forall h, In h (range 6 19 1) <-> (6 <= h <= 18)%Z).
    { intros h. change (range 6 19 1)
        with [6; 7; 8; 9; 10; 11; 12; 13; 14; 15; 16; 17; 18]%Z.
      cbn [In]. lia. }
    destruct (max_cases mx 10) as [[-> Hlt] | [-> Hge]].
    + split; [|now left].
      intros h Hh. apply Hrange in Hh. specialize (Hb h Hh). lra.
    + split.
      * intros h Hh. apply Hrange in Hh. exact (Hb h Hh).
      * destruct Hcase as [-> | (h & Hh & ->)]; [exfalso; lra|].
        right. exists h. split; [now apply Hrange | reflexivity].
Qed.

End TwilightFacts.

(** * Further properties of the PV scheduler *)

Module LoopFacts.
Import Py PV Loop PyFacts PVFacts.

(** ** How a callback carries the schedule on *)

Lemma armed_cancel t : armed (cancel t) = [].
Proof. now destruct t. Qed.

Lemma started_cancel t : started (cancel t) = [].
Proof. now destruct t. Qed.

Lemma armed_count_result label result s : armed (snd (count_result label result s)) = [].
Proof. unfold count_result. now destruct result. Qed.

Lemma started_count_result label result s : started (snd (count_result label result s)) = [].
Proof. unfold count_result. now destruct result. Qed.

Lemma quiet_current_interval env s :
  armed (snd (_get_current_pv_interval env s)) = [] /\
  started (snd (_get_current_pv_interval env s)) = [].
Proof.
  pose proof (get_current_pv_interval_silent env s) as H.
  induction (snd (_get_current_pv_interval env s)) as [|e l IH]; [now split|].
  destruct (H e (or_introl eq_refl)) as [msg ->].
  destruct IH as [Ha Hs]; [intros e' He'; apply H; now right|].
  split; cbn; assumption.
Qed.

Lemma retry_carries_on delay_ms start_queries s pre post :
  armed pre = [] -> started pre = [] -> armed post = [] -> started post = [] ->
  carries_on (fst (_schedule_pv_retry delay_ms start_queries s))
             (pre ++ snd (_schedule_pv_retry delay_ms start_queries s) ++ post).
Proof.
  intros Hap Hsp Haq Hsq. unfold _schedule_pv_retry. cbn [fst snd].
  eapply arms_timer.
  - rewrite !armed_app, Hap, Haq, armed_cancel. reflexivity.
  - rewrite !started_app, Hsp, Hsq, started_cancel. reflexivity.
  - left. reflexivity.
Qed.

Lemma next_day_timer env s :
  exists t,
    (60 * 1000 <= fst t)%Z /\
    armed (snd (_schedule_next_day env s)) = [t] /\
    started (snd (_schedule_next_day env s)) = [] /\
    pv_window_timer (fst (_schedule_next_day env s)) = Some t.
Proof.
  unfold _schedule_next_day, _schedule_pv_retry.
  destruct (fst (twilight_tomorrow env)) as [dawn|]; cbn [fst snd];
    eexists; (split; [|split; [|split]]);
    try (rewrite !armed_app, armed_cancel; reflexivity);
    try (rewrite !started_app, started_cancel; reflexivity);
    try reflexivity; cbn [fst]; lia.
Qed.

Lemma next_day_carries_on env s pre :
  armed pre = [] -> started pre = [] ->
  carries_on (fst (_schedule_next_day env s)) (pre ++ snd (_schedule_next_day env s)).
Proof.
  intros Hap Hsp. destruct (next_day_timer env s) as (t & _ & Ha & Hs & Hr).
  eapply arms_timer.
  - rewrite armed_app, Hap, Ha. reflexivity.
  - rewrite started_app, Hsp, Hs. reflexivity.
  - left. exact Hr.
Qed.

Ltac quiet :=
  rewrite ?armed_app, ?started_app, ?armed_cancel, ?started_cancel,
    ?armed_count_result, ?started_count_result;
  repeat match goal with
    | H : armed ?l = _ |- context [armed ?l] => rewrite H
    | H : started ?l = _ |- context [started ?l] => rewrite H
    end;
  try reflexivity.

Lemma finalize_smart_carries_on env result s :
  let r := _finalize_pv_smart env result s in carries_on (fst r) (snd r).
Proof.
  cbv zeta. unfold _finalize_pv_smart.
  pose proof (armed_count_result "PV: Fehler" result s) as Ha1.
  pose proof (started_count_result "PV: Fehler" result s) as Hs1.
  destruct (count_result "PV: Fehler" result s) as [s1 eff1]. cbn [snd] in Ha1, Hs1.
  destruct (negb (is_result result) && (5 <=? pv_consecutive_failures s1)%Z).
  - pose proof (@retry_carries_on (15 * 60 * 1000) false s1
                  (eff1 ++ [Log WARNING "PV: Fehler in Folge, pausiere 15 Min"]) []) as H.
    destruct (_schedule_pv_retry (15 * 60 * 1000) false s1) as [s2 eff2].
    cbn [fst snd] in *. rewrite app_nil_r, <- app_assoc in H. apply H; quiet.
  - destruct (quiet_current_interval env s1) as [Ha2 Hs2].
    destruct (_get_current_pv_interval env s1) as [[interval_s continue_queries] eff2].
    cbn [snd] in Ha2, Hs2.
    destruct (continue_queries && ltb 0 interval_s).
    + cbn [fst snd]. eapply arms_timer.
      * quiet. destruct (pv_queries_today s1 mod 50 =? 0)%Z; reflexivity.
      * quiet. destruct (pv_queries_today s1 mod 50 =? 0)%Z; reflexivity.
      * right. left. reflexivity.
    + destruct (producing s1); [destruct (pv_queries_today s1 <? pv_max_queries s1)%Z|].
      * cbn [fst snd]. eapply starts_fetch; quiet.
      * pose proof (@next_day_carries_on env s1
                      (eff1 ++ eff2 ++ [Log INFO "PV-Fenster beendet, Budget erschoepft"])) as H.
        destruct (_schedule_next_day env s1) as [s2 eff3]. cbn [fst snd] in *.
        rewrite <- !app_assoc in H. apply H; quiet.
      * pose proof (@next_day_carries_on env s1
                      (eff1 ++ eff2 ++ [Log INFO "PV-Fenster beendet."])) as H.
        destruct (_schedule_next_day env s1) as [s2 eff3]. cbn [fst snd] in *.
        rewrite <- !app_assoc in H. apply H; quiet.
Qed.

Lemma finalize_followup_carries_on env result s :
  let r := _finalize_pv_followup env result s in carries_on (fst r) (snd r).
Proof.
  cbv zeta. unfold _finalize_pv_followup.
  pose proof (armed_count_result "PV followup: Fehler" result s) as Ha1.
  pose proof (started_count_result "PV followup: Fehler" result s) as Hs1.
  destruct (count_result "PV followup: Fehler" result s) as [s1 eff1].
  cbn [snd] in Ha1, Hs1.
  destruct (negb (is_result result) && (5 <=? pv_consecutive_failures s1)%Z).
  - cbn [fst snd]. eapply arms_timer; quiet. right. right. reflexivity.
  - destruct (pv_max_queries s1 <=? pv_queries_today s1)%Z; [|destruct (producing s1)].
    + pose proof (@next_day_carries_on env s1
                    (eff1 ++ [Log INFO "PV-Followup beendet: Tageslimit erreicht"])) as H.
      destruct (_schedule_next_day env s1) as [s2 eff2]. cbn [fst snd] in *.
      rewrite <- !app_assoc in H. apply H; quiet.
    + cbn [fst snd]. eapply arms_timer; quiet. right. right. reflexivity.
    + pose proof (@next_day_carries_on env s1
                    (eff1 ++ [Log INFO "PV-Followups beendet (keine Produktion)."])) as H.
      destruct (_schedule_next_day env s1) as [s2 eff2]. cbn [fst snd] in *.
      rewrite <- !app_assoc in H. apply H; quiet.
Qed.

Lemma plan_and_start_carries_on env w s pre :
  armed pre = [] -> started pre = [] ->
  carries_on (fst (plan_and_start env w s)) (pre ++ snd (plan_and_start env w s)).
Proof.
  intros Hap Hsp. unfold plan_and_start.
  set (s2 := set_intervals _ _ _).
  set (eff_budget := _ ++ [Log INFO "PV-Fenster"]).
  assert (Hab : armed eff_budget = [] /\ started eff_budget = []).
  { subst eff_budget. destruct (queries _); split; reflexivity. }
  destruct Hab as [Hab Hsb].
  destruct (now env <? civil_dawn w)%Z;
    [|destruct ((civil_dawn w <=? now env) && (now env <=? civil_dusk w))%Z].
  - match goal with |- context [_schedule_pv_retry ?d true s2] =>
      pose proof (@retry_carries_on d true s2 (pre ++ eff_budget)
                    [Log INFO "PV startet bei Morgendaemmerung"]) as H;
      destruct (_schedule_pv_retry d true s2) as [s3 eff]
    end.
    cbn [fst snd] in *. rewrite <- !app_assoc in H. apply H; quiet.
  - cbn [fst snd]. eapply starts_fetch; quiet.
  - pose proof (@next_day_carries_on env s2 (pre ++ eff_budget)) as H.
    destruct (_schedule_next_day env s2) as [s3 eff]. cbn [fst snd] in *.
    rewrite <- !app_assoc in H. apply H; quiet.
Qed.

Lemma with_sun_times_carries_on env k dawn dusk s pre :
  armed pre = [] -> started pre = [] ->
  carries_on (fst (with_sun_times env k dawn dusk s))
             (pre ++ snd (with_sun_times env k dawn dusk s)).
Proof.
  intros Hap Hsp. unfold with_sun_times.
  destruct (met_no env k) as [[sunrise|] [sunset|]];
    try (apply plan_and_start_carries_on; assumption);
    match goal with |- context [plan_and_start env ?w s] =>
      pose proof (@plan_and_start_carries_on env w s
                    (pre ++ [Log INFO "Sonnenzeiten nicht verfuegbar, verwende Fallback"])) as H;
      destruct (plan_and_start env w s) as [s1 eff]
    end;
    cbn [fst snd] in *; rewrite <- !app_assoc in H; apply H; quiet.
Qed.

Lemma reset_on_new_day_effects env s :
  armed (snd (reset_on_new_day env s)) = [] /\ started (snd (reset_on_new_day env s)) = [].
Proof. destruct (reset_on_new_day_quiet env s) as (Ha & Hs & _). auto. Qed.

Lemma schedule_pv_window_carries_on env s :
  let r := schedule_pv_window env s in carries_on (fst r) (snd r).
Proof.
  cbv zeta. unfold schedule_pv_window.
  destruct (reset_on_new_day_effects env s) as [Har Hsr].
  destruct (reset_on_new_day env s) as [s1 eff_reset]. cbn [snd] in Har, Hsr.
  assert (Hfall : forall dawn dusk pre,
             armed pre = [] -> started pre = [] ->
             let r := with_sun_times env 1 dawn dusk s1 in
             carries_on (fst r) (eff_reset ++ pre ++ snd r)).
  { intros dawn dusk pre Hap Hsp.
    pose proof (@with_sun_times_carries_on env 1 dawn dusk s1 (eff_reset ++ pre)) as H.
    cbv zeta. rewrite <- app_assoc in H. apply H; quiet. }
  assert (Hretry :
            let r := _schedule_pv_retry (30 * 60 * 1000) false s1 in
            carries_on (fst r)
              (eff_reset
               ++ [Log INFO "Skyfield-Daemmerung nicht verfuegbar, verwende api.met.no Fallback"]
               ++ [Log WARNING "Weder Skyfield noch api.met.no verfuegbar. Erneuter Versuch in 30 Minuten."]
               ++ snd r)).
  { pose proof (@retry_carries_on (30 * 60 * 1000) false s1
                  (eff_reset
                   ++ [Log INFO "Skyfield-Daemmerung nicht verfuegbar, verwende api.met.no Fallback"]
                   ++ [Log WARNING "Weder Skyfield noch api.met.no verfuegbar. Erneuter Versuch in 30 Minuten."])
                  []) as H.
    cbv zeta. rewrite app_nil_r, <- !app_assoc in H. apply H; quiet. }
  cbv zeta in Hfall, Hretry.
  destruct (twilight_today env) as [[dawn|] [dusk|]].
  - pose proof (@with_sun_times_carries_on env 0 dawn dusk s1 eff_reset Har Hsr) as H.
    destruct (with_sun_times env 0 dawn dusk s1). exact H.
  - destruct (met_no env 0) as [[sunrise|] [sunset|]];
      try (destruct (_schedule_pv_retry (30 * 60 * 1000) false s1); exact Hretry).
    match goal with |- context [with_sun_times env 1 ?a ?b s1] =>
      pose proof (Hfall a b
        ([Log INFO "Skyfield-Daemmerung nicht verfuegbar, verwende api.met.no Fallback"]
         ++ [Log INFO "Fallback-Daemmerung"]) eq_refl eq_refl) as H;
      destruct (with_sun_times env 1 a b s1)
    end.
    rewrite <- !app_assoc in H. exact H.
  - destruct (met_no env 0) as [[sunrise|] [sunset|]];
      try (destruct (_schedule_pv_retry (30 * 60 * 1000) false s1); exact Hretry).
    match goal with |- context [with_sun_times env 1 ?a ?b s1] =>
      pose proof (Hfall a b
        ([Log INFO "Skyfield-Daemmerung nicht verfuegbar, verwende api.met.no Fallback"]
         ++ [Log INFO "Fallback-Daemmerung"]) eq_refl eq_refl) as H;
      destruct (with_sun_times env 1 a b s1)
    end.
    rewrite <- !app_assoc in H. exact H.
  - destruct (met_no env 0) as [[sunrise|] [sunset|]];
      try (destruct (_schedule_pv_retry (30 * 60 * 1000) false s1); exact Hretry).
    match goal with |- context [with_sun_times env 1 ?a ?b s1] =>
      pose proof (Hfall a b
        ([Log INFO "Skyfield-Daemmerung nicht verfuegbar, verwende api.met.no Fallback"]
         ++ [Log INFO "Fallback-Daemmerung"]) eq_refl eq_refl) as H;
      destruct (with_sun_times env 1 a b s1)
    end.
    rewrite <- !app_assoc in H. exact H.
Qed.

(** X8. Every PV callback of the Tk loop, except the start-up result of
    mode [single], carries the schedule on in exactly one way: it arms
    exactly one timer and starts no fetch, or it starts exactly one fetch
    and arms no timer; and a timer it arms is kept in one of the three
    timer attributes, where shutdown finds it.  The [single] finalizer
    arms and starts nothing. *)
Theorem schedule_carries_on_once :
  forall e s,
    let r := handle e s in
    match e with
    | result_applied single _ _ => armed (snd r) = [] /\ started (snd r) = []
    | _ =>
        continuations (snd r) = 1%nat /\
        forall t, In t (armed (snd r)) -> recorded t (fst r)
    end.
Proof.
  intros e s r.
  assert (Hone : carries_on (fst r) (snd r) ->
                 continuations (snd r) = 1%nat /\
                 forall t, In t (armed (snd r)) -> recorded t (fst r)).
  { intros [t Ha Hs Hr | mode Ha Hs]; unfold continuations; rewrite Ha, Hs; split; auto.
    - intros t' [<- | []]. exact Hr.
    - intros t' []. }
  subst r. destruct e as [[| |] env result | env | |]; cbn [handle finalize] in *.
  - apply Hone, finalize_smart_carries_on.
  - apply Hone, finalize_followup_carries_on.
  - unfold _finalize_pv_single. split;
      [apply armed_count_result | apply started_count_result].
  - apply Hone, schedule_pv_window_carries_on.
  - split; [reflexivity | intros t []].
  - split; [reflexivity | intros t []].
Qed.

(** ** The daily limit *)

(** X9. Once the daily limit is reached (counting the result being
    applied), neither polling finalizer starts a fetch: all it does is arm
    one timer at least a minute ahead (the next day's start, the 12-hour
    retry, or the 15-minute pause). *)
Theorem exhausted_budget_starts_no_fetch :
  forall mode env result s,
    mode <> single ->
    (pv_max_queries s <= pv_queries_today s + (if is_result result then 1 else 0))%Z ->
    started (snd (finalize mode env result s)) = [] /\
    exists t,
      armed (snd (finalize mode env result s)) = [t] /\ (60 * 1000 <= fst t)%Z.
Proof.
  intros mode env result s Hm Hb.
  pose proof (count_result_state (label_of mode) result s) as (_ & Hq & _ & Hmax).
  pose proof (armed_count_result (label_of mode) result s) as Ha1.
  pose proof (started_count_result (label_of mode) result s) as Hs1.
  destruct mode; [| |congruence]; cbn [finalize label_of] in *.
  - unfold _finalize_pv_smart.
    destruct (count_result "PV: Fehler" result s) as [s1 eff1].
    cbn [fst snd] in Hq, Hmax, Ha1, Hs1.
    assert (Hex : (pv_max_queries s1 <= pv_queries_today s1)%Z) by lia.
    destruct (negb (is_result result) && (5 <=? pv_consecutive_failures s1)%Z).
    + unfold _schedule_pv_retry. cbn [fst snd]. split; [quiet|].
      eexists. split; [quiet|]. cbn [fst]. lia.
    + unfold _get_current_pv_interval.
      destruct (Z.leb_spec (pv_max_queries s1) (pv_queries_today s1)); [|lia].
      cbn [andb].
      destruct (next_day_timer env s1) as (t & Ht & Ha & Hs & _).
      destruct (producing s1);
        [destruct (Z.ltb_spec (pv_queries_today s1) (pv_max_queries s1)); [lia|]|];
        destruct (_schedule_next_day env s1) as [s2 eff3]; cbn [fst snd] in *;
        (split; [quiet | exists t; split; [quiet | exact Ht]]).
  - unfold _finalize_pv_followup.
    destruct (count_result "PV followup: Fehler" result s) as [s1 eff1].
    cbn [fst snd] in Hq, Hmax, Ha1, Hs1.
    assert (Hex : (pv_max_queries s1 <= pv_queries_today s1)%Z) by lia.
    destruct (negb (is_result result) && (5 <=? pv_consecutive_failures s1)%Z).
    + cbn [fst snd]. split; [quiet|]. eexists. split; [quiet|]. cbn [fst]. lia.
    + destruct (Z.leb_spec (pv_max_queries s1) (pv_queries_today s1)); [|lia].
      destruct (next_day_timer env s1) as (t & Ht & Ha & Hs & _).
      destruct (_schedule_next_day env s1) as [s2 eff3]; cbn [fst snd] in *.
      split; [quiet | exists t; split; [quiet | exact Ht]].
Qed.

Lemma exhausted_budget_starts_no_fetch_witness :
  let env := mkEnv 20000 39600000000 (Some 0%Z, Some 41400000000%Z) (None, None)
                   (fun _ => (Some 1800000000%Z, Some 37800000000%Z)) in
  let s := mkDashboard (Some 0%Z) (Some 1800000000%Z) (Some 37800000000%Z)
                       (Some 41400000000%Z) 280 279 (Some 20000%Z)
                       (Some 900) (Some (36000 # 271)) (Some 1200) 300 0
                       None None None in
  let result := Some (mkPvResult (Some 1500) None None None) in
  started (snd (finalize smart env result s)) = [] /\
  exists t, armed (snd (finalize smart env result s)) = [t] /\ (60 * 1000 <= fst t)%Z.
Proof.
  cbv zeta. apply exhausted_budget_starts_no_fetch.
  - discriminate.
  - cbn. lia.
Defined.

(** ** The window *)

(** X10. With a valid planned window and budget left,
    [_get_current_pv_interval] tells to continue exactly when the current
    time lies between civil dawn and civil dusk, both included; outside it
    returns the interval 0. *)
Theorem continues_exactly_inside_window :
  forall env w s,
    holds_plan w s ->
    valid_window w ->
    (pv_queries_today s < pv_max_queries s)%Z ->
    let r := fst (_get_current_pv_interval env s) in
    (snd r = true <-> (civil_dawn w <= now env <= civil_dusk w)%Z) /\
    (snd r = false -> fst r = 0).
Proof.
  intros env w s Hp Hv Hb r.
  assert (Hin : (civil_dawn w <= now env <= civil_dusk w)%Z ->
                exists ph, in_phase ph w (now env)).
  { destruct Hv as (H1 & H2 & H3). intros Hn.
    destruct (Z.lt_ge_cases (now env) (sunrise_dt w));
      [exists dawn_ramp; cbn; lia|].
    destruct (Z.le_gt_cases (now env) (sunset_dt w));
      [exists core; cbn; lia | exists dusk_ramp; cbn; lia]. }
  destruct (Z.lt_ge_cases (now env) (civil_dawn w)) as [Hlo | Hlo];
    [|destruct (Z.lt_ge_cases (civil_dusk w) (now env)) as [Hhi | Hhi]].
  3: { destruct (Hin ltac:(lia)) as [ph Hph].
       subst r. rewrite (@current_interval_of_plan env w s ph Hp Hv Hb Hph).
       cbn [fst snd]. split; [split; [lia | reflexivity] | discriminate]. }
  all: assert (Hr : r = (0, false));
    [ subst r; unfold _get_current_pv_interval;
      destruct Hp as (Hd & Hsr & Hss & Hk & Hir & Hic);
      destruct (Z.leb_spec (pv_max_queries s) (pv_queries_today s)); [lia|];
      rewrite Hd, Hsr, Hss, Hk, Hir, Hic;
      destruct (pv_budget_positive (pv_max_queries s) w) as [Hrp Hcp];
      rewrite (truthy_positive Hrp), (truthy_positive Hcp); cbn [negb orb];
      repeat match goal with
        | |- context [(?a <? ?b)%Z] => destruct (Z.ltb_spec a b); try lia
        end; reflexivity
    | rewrite Hr; cbn [fst snd]; split; [split; [discriminate | lia] | reflexivity] ].
Qed.

Lemma continues_exactly_inside_window_witness :
  let w := mkWindow 0 1800000000 37800000000 41400000000 in
  let env := mkEnv 20000 39600000000 (Some 0%Z, Some 41400000000%Z) (None, None)
                   (fun _ => (Some 1800000000%Z, Some 37800000000%Z)) in
  let s := fst (schedule_pv_window env dashboard0) in
  let r := fst (_get_current_pv_interval env s) in
  (snd r = true <-> (civil_dawn w <= now env <= civil_dusk w)%Z) /\
  (snd r = false -> fst r = 0).
Proof.
  cbv zeta.
  apply (@continues_exactly_inside_window
           (mkEnv 20000 39600000000 (Some 0%Z, Some 41400000000%Z) (None, None)
                  (fun _ => (Some 1800000000%Z, Some 37800000000%Z)))
           (mkWindow 0 1800000000 37800000000 41400000000)).
  - unfold holds_plan. repeat split; vm_compute; reflexivity.
  - unfold valid_window. vm_compute. repeat split; discriminate.
  - vm_compute. reflexivity.
Defined.

(** ** The counters *)

Lemma schedule_pv_window_counters env s :
  let s' := fst (schedule_pv_window env s) in
  pv_max_queries s' = pv_max_queries s /\
  pv_attempts_today s' = pv_attempts_today s /\
  pv_consecutive_failures s' = pv_consecutive_failures s /\
  (pv_queries_today s' = pv_queries_today s \/ pv_queries_today s' = 0%Z).
Proof.
  cbv zeta. rewrite schedule_pv_window_state.
  assert (Hr : let s1 := fst (reset_on_new_day env s) in
               pv_max_queries s1 = pv_max_queries s /\
               pv_attempts_today s1 = pv_attempts_today s /\
               pv_consecutive_failures s1 = pv_consecutive_failures s /\
               (pv_queries_today s1 = pv_queries_today s \/ pv_queries_today s1 = 0%Z)).
  { unfold reset_on_new_day.
    destruct (match pv_query_date s with Some d => (d =? today env)%Z | None => false end);
      cbn; auto. }
  cbv zeta in Hr. set (s1 := fst (reset_on_new_day env s)) in *.
  assert (Hp : forall w,
             pv_max_queries (fst (plan_and_start env w s1)) = pv_max_queries s1 /\
             pv_attempts_today (fst (plan_and_start env w s1)) = pv_attempts_today s1 /\
             pv_consecutive_failures (fst (plan_and_start env w s1))
             = pv_consecutive_failures s1 /\
             pv_queries_today (fst (plan_and_start env w s1)) = pv_queries_today s1).
  { intros w. unfold plan_and_start. set (s2 := set_intervals _ _ _).
    assert (Hs : forall s3, same_but_timers s2 s3 ->
                            pv_max_queries s3 = pv_max_queries s1 /\
                            pv_attempts_today s3 = pv_attempts_today s1 /\
                            pv_consecutive_failures s3 = pv_consecutive_failures s1 /\
                            pv_queries_today s3 = pv_queries_today s1).
    { intros s3 H3. unfold same_but_timers in H3. decompose [and] H3.
      repeat split; etransitivity; try eassumption; reflexivity. }
    repeat break_if; cbn [fst]; try (repeat split; fail); apply Hs; finish_state. }
  destruct (twilight_window env) as [w|].
  - destruct (Hp w) as (-> & -> & -> & ->). exact Hr.
  - cbn. exact Hr.
Qed.

(** X11. Whatever PV callbacks the Tk loop runs after start-up, in
    whatever order and with whatever results: the daily limit stays 280,
    and neither the day's query counter nor the failure streak is negative
    or exceeds the number of attempts counted since the start. *)
Theorem counters_stay_sound :
  forall events, counters_sound (run_events events dashboard0).
Proof.
  assert (Hstep : forall e s, counters_sound s -> counters_sound (fst (handle e s))).
  { intros e s (Hm & Hq & Hf). destruct e as [mode env result | env | |]; cbn [handle fst].
    - pose proof (finalize_state mode env result s) as Hs.
      pose proof (count_result_state (label_of mode) result s) as (Ha & Hq' & Hf' & Hm').
      unfold same_but_timers in Hs. decompose [and] Hs. unfold counters_sound.
      destruct result; cbn [is_result] in *; repeat split; lia.
    - destruct (schedule_pv_window_counters env s) as (Hm' & Ha' & Hf' & Hq').
      unfold counters_sound. destruct Hq'; repeat split; lia.
    - repeat split; lia.
    - repeat split; lia. }
  assert (Hrun : forall events s, counters_sound s -> counters_sound (run_events events s)).
  { induction events as [|e events IH]; intros s Hs; [exact Hs|].
    cbn [run_events]. apply IH, Hstep, Hs. }
  intros events. apply Hrun. unfold counters_sound. cbn. lia.
Qed.

End LoopFacts.

(** * The scheduler on the twilight of the ephemeris *)

Module WindowFacts.
Import Py Astro PV Twilight PyFacts AstroFacts PVFacts TwilightFacts.

(** X6. With a loaded ephemeris (local midnight, noon and 23:59:59 in
    this order on the time scale, and a conversion to local time that
    keeps the order of instants), [schedule_pv_window] never takes its
    no-source retry: it plans a window whose civil dawn is not after its
    civil dusk, whatever the sunrise/sunset provider answers. *)
Theorem loaded_ephemeris_plans_window :
  forall d (at_time : Z -> Z -> Z -> Time) (to_local : Time -> DateTime) g g1 env s,
    consistent g ->
    init_skyfield d g = (true, g1) ->
    at_time 0%Z 0%Z 0%Z <= at_time 12%Z 0%Z 0%Z ->
    at_time 12%Z 0%Z 0%Z <= at_time 23%Z 59%Z 59%Z ->
    (forall a b : Time, a <= b -> (to_local a <= to_local b)%Z) ->
    let env' := env_with_twilight d at_time to_local g env in
    exists w,
      twilight_window env' = Some w /\
      (civil_dawn w <= civil_dusk w)%Z /\
      holds_plan w (fst (schedule_pv_window env' s)).
Proof.
  intros d at_time to_local g g1 env s Hc Hi H1 H2 Hmono env'.
  destruct (@civil_twilight_found d at_time to_local g g1 Hc Hi H1 H2)
    as (dawn_t & dusk_t & Hres & Hdawn & Hdusk).
  assert (Hord : (to_local dawn_t <= to_local dusk_t)%Z) by (apply Hmono; lra).
  assert (Hw : twilight_window env'
               = Some (sun_times (met_no env 0) (to_local dawn_t) (to_local dusk_t))).
  { unfold twilight_window, env', env_with_twilight. cbn [twilight_today met_no].
    rewrite Hres. reflexivity. }
  exists (sun_times (met_no env 0) (to_local dawn_t) (to_local dusk_t)).
  split; [exact Hw|]. split.
  - unfold sun_times. destruct (met_no env 0) as [[sunrise|] [sunset|]]; exact Hord.
  - rewrite schedule_pv_window_state, Hw.
    apply (plan_and_start_state env' _ (fst (reset_on_new_day env' s))).
Qed.

Lemma loaded_ephemeris_plans_window_witness :
  let at_time : Z -> Z -> Z -> Time := fun h m s => inject_Z (h * 3600 + m * 60 + s) in
  let to_local : Time -> DateTime := fun t => Qfloor (t * 1000000) in
  let env := mkEnv 20000 0 (None, None) (None, None) (fun _ => (None, None)) in
  let env' := env_with_twilight (EphLoaded (fun t => Some t)) at_time to_local globals0 env in
  exists w,
    twilight_window env' = Some w /\
    (civil_dawn w <= civil_dusk w)%Z /\
    holds_plan w (fst (schedule_pv_window env' dashboard0)).
Proof.
  cbv zeta.
  apply (@loaded_ephemeris_plans_window
           (EphLoaded (fun t => Some t))
           (fun h m s => inject_Z (h * 3600 + m * 60 + s))
           (fun t => Qfloor (t * 1000000)) globals0
           (logging INFO msg_init_ok (mkGlobals true (Some (fun t => Some t)) (Some true) []))).
  - exact consistent_globals0.
  - reflexivity.
  - discriminate.
  - discriminate.
  - intros a b Hab. apply Qfloor_resp_le. lra.
Defined.

End WindowFacts.

(** * Properties of the buffer of the day's PV measurements *)

Module PvBufferFacts.
Import Py PvBuffer PyFacts.

Lemma is_day_true day today : is_day day today = true <-> day = Some today.
Proof.
  unfold is_day. destruct day as [s|]; [|split; discriminate].
  rewrite String.eqb_eq. split; congruence.
Qed.

Lemma every_other_pairs : forall n l x,
  List.length l = (2 * n)%nat ->
  exists init,
    every_other (l ++ [x]) = init ++ [x] /\ List.length init = n.
Proof.
  induction n as [|n IH]; intros l x Hlen.
  - destruct l; [|discriminate]. exists []. split; reflexivity.
  - destruct l as [|a [|b l]]; try (cbn in Hlen; lia).
    destruct (IH l x) as (init & He & Hl); [cbn in Hlen; lia|].
    exists (a :: init). cbn [app every_other]. cbn [app] in He. rewrite He.
    split; [reflexivity | cbn; lia].
Qed.

Lemma load_bounded today w :
  bounded w -> bounded (snd (load_pv_daily_data today w)).
Proof.
  intros [Hb Hf]. unfold load_pv_daily_data.
  destruct (is_day (date (buffer w)) today); [split; assumption|].
  destruct (file w) as [| |day entries] eqn:Hfile;
    try destruct (is_day day today);
    split; cbn; try rewrite Hfile; auto;
    unfold MAX_PV_MEASUREMENTS_PER_DAY; lia.
Qed.

(** X13. A daytime value is always kept, and the curve stays bounded: when
    the buffer and the file hold at most 500 entries, a call of
    [add_pv_measurement] with a positive power returns the buffer's new
    content, which ends with the new entry, holds at most 500 entries and
    belongs to the current Zurich day; the file too still holds at most
    500 entries. *)
Theorem daytime_measurement_kept :
  forall env p w,
    bounded w ->
    0 < p ->
    let r := add_pv_measurement env (Some p) w in
    fst r = measurements (buffer (snd r)) /\
    (exists earlier, fst r = earlier ++ [mkMeasurement (time_of_day env) p]) /\
    date (buffer (snd r)) = Some (today_local env) /\
    bounded (snd r).
Proof.
  intros env p w Hb Hp r. subst r. unfold add_pv_measurement.
  assert (Hn : leb p 0 = false) by (apply leb_gt; exact Hp). rewrite Hn.
  pose proof (load_bounded (today_system env) Hb) as Hb1.
  destruct (load_pv_daily_data (today_system env) w) as [b1 w1]. cbn [snd] in Hb1.
  set (w2 := if is_day (date (buffer w1)) (today_local env) then w1 else _).
  assert (H2 : bounded w2 /\ date (buffer w2) = Some (today_local env)).
  { subst w2. destruct (is_day (date (buffer w1)) (today_local env)) eqn:Hd.
    - split; [exact Hb1 | now apply is_day_true].
    - destruct Hb1 as [Hx Hy]. split; [|reflexivity]. split; cbn.
      + unfold MAX_PV_MEASUREMENTS_PER_DAY. lia.
      + destruct (dirty (buffer w1) && rollover_write_ok env); assumption. }
  destruct H2 as [[Hlen2 Hfile2] Hdate2].
  set (new := mkMeasurement (time_of_day env) p).
  set (appended := measurements (buffer w2) ++ [new]).
  set (w3 := if (MAX_PV_MEASUREMENTS_PER_DAY <? List.length appended)%nat then _ else _).
  assert (H3 : (exists earlier, measurements (buffer w3) = earlier ++ [new]) /\
               date (buffer w3) = Some (today_local env) /\
               bounded w3).
  { subst w3. unfold MAX_PV_MEASUREMENTS_PER_DAY in *.
    destruct (Nat.ltb_spec 500 (List.length appended)) as [Hbig | Hsmall].
    - assert (Hl : List.length (measurements (buffer w2)) = (2 * 250)%nat).
      { subst appended. rewrite length_app in Hbig. cbn in Hbig. lia. }
      destruct (every_other_pairs 250 (measurements (buffer w2)) new Hl)
        as (init & He & Hi).
      unfold bounded, MAX_PV_MEASUREMENTS_PER_DAY.
      cbn [buffer logged with_buffer measurements date file]. fold appended in He.
      rewrite He. split; [eauto|]. split; [exact Hdate2|].
      split; [rewrite length_app; cbn; lia | exact Hfile2].
    - unfold bounded, MAX_PV_MEASUREMENTS_PER_DAY.
      cbn [buffer with_buffer measurements date file].
      split; [subst appended; eauto|]. split; [exact Hdate2|].
      split; [exact Hsmall | exact Hfile2]. }
  destruct H3 as (Hlast & Hdate3 & [Hlen3 Hfile3]).
  cbn [fst snd].
  destruct (List.length (measurements (buffer w3)) mod _pv_flush_interval =? 0)%nat.
  - unfold save_pv_daily_data.
    destruct (negb (dirty (buffer w3))); [repeat split; assumption|].
    destruct (flush_write_ok env); cbn [buffer file logged measurements date];
      repeat split; assumption.
  - repeat split; assumption.
Qed.

Lemma daytime_measurement_kept_witness :
  let env := mkAddEnv "2026-01-02" "2026-01-02" "12:10:00" true true in
  let w := mkWorld (mkBuffer (Some "2026-01-01"%string)
                             [mkMeasurement "12:00:00" 1500] true) NoFile [] in
  let r := add_pv_measurement env (Some 1800) w in
  fst r = measurements (buffer (snd r)) /\
  (exists earlier, fst r = earlier ++ [mkMeasurement "12:10:00" 1800]) /\
  date (buffer (snd r)) = Some "2026-01-02"%string /\
  bounded (snd r).
Proof.
  cbv zeta.
  apply (@daytime_measurement_kept
           (mkAddEnv "2026-01-02" "2026-01-02" "12:10:00" true true) 1800
           (mkWorld (mkBuffer (Some "2026-01-01"%string)
                              [mkMeasurement "12:00:00" 1500] true) NoFile [])).
  - split; cbn; [unfold MAX_PV_MEASUREMENTS_PER_DAY; lia | exact I].
  - reflexivity.
Defined.

(** X14. What a successful save writes is what a restart reads: after
    [save_pv_daily_data] has written a dirty buffer of day [today], a
    process that starts on that file loads the same measurements on the
    same day, with a clean buffer, and an empty curve on any other day. *)
Theorem save_then_restart_loads :
  forall today w,
    dirty (buffer w) = true ->
    date (buffer w) = Some today ->
    let saved := save_pv_daily_data true w in
    fst (load_pv_daily_data today (restart saved))
    = mkBuffer (Some today) (measurements (buffer w)) false /\
    forall other,
      other <> today ->
      fst (load_pv_daily_data other (restart saved)) = mkBuffer (Some other) [] false.
Proof.
  intros today w Hd Hday saved. subst saved.
  unfold save_pv_daily_data, restart, load_pv_daily_data. rewrite Hd, Hday.
  cbn [negb file buffer date buffer0 is_day]. split.
  - now rewrite String.eqb_refl.
  - intros other Hne. destruct (String.eqb_spec today other); [congruence | reflexivity].
Qed.

Lemma save_then_restart_loads_witness :
  let w := mkWorld (mkBuffer (Some "2026-01-02"%string)
                             [mkMeasurement "12:00:00" 1500] true) NoFile [] in
  let saved := save_pv_daily_data true w in
  fst (load_pv_daily_data "2026-01-02" (restart saved))
  = mkBuffer (Some "2026-01-02"%string) (measurements (buffer w)) false /\
  forall other,
    other <> "2026-01-02"%string ->
    fst (load_pv_daily_data other (restart saved)) = mkBuffer (Some other) [] false.
Proof.
  cbv zeta.
  apply (@save_then_restart_loads "2026-01-02"
           (mkWorld (mkBuffer (Some "2026-01-02"%string)
                              [mkMeasurement "12:00:00" 1500] true) NoFile [])).
  - reflexivity.
  - reflexivity.
Defined.

End PvBufferFacts.
